(** * Mind map pipeline: a shallow embedding of [mindmap_pipeline.py] and
    [services/ai_pipeline.py], with the properties of the text-to-mindmap
    pipeline stated over it.

    Conventions of the embedding.
    - A Python [str] is a [string]; its characters are the code points
      below 256.  [len] is [String.length].
    - A value decoded from a JSON body, and every dictionary the pipeline
      builds, is a [pyval].  Dictionaries keep insertion order, as Python's
      do, and are association lists.
    - A function that can raise returns a [result]; a function that talks to
      the outside (HTTP, the random generator, KMeans, the file system) runs
      in the monad [M], which threads the [world] and carries the exception.
      The effects persist when an exception is raised, as they do in Python.
    - The outside itself is the record [Env]: every theorem below holds for
      every [Env], that is, for every behaviour of the remote calls.
    - [print] statements are left out. *)

From Stdlib Require Import String Ascii List ZArith QArith Bool Lia Arith DecimalString.
Import ListNotations.
Close Scope Q_scope.
Open Scope string_scope.
Open Scope list_scope.
Open Scope nat_scope.

Set Implicit Arguments.
Set Warnings "-register-all".

(* ================================================================== *)
(** ** Python strings *)
(* ================================================================== *)

Module PyStr.

(** [str.isspace] on one character, which is also what the regular
    expression class [\s] matches on [str] patterns. *)
Definition isspace (c : ascii) : bool :=
  let n := nat_of_ascii c in
  ((9 <=? n) && (n <=? 13)) || ((28 <=? n) && (n <=? 32))
  || (n =? 133) || (n =? 160).

Fixpoint rev_onto (s acc : string) : string :=
  match s with
  | EmptyString => acc
  | String c s' => rev_onto s' (String c acc)
  end.

Definition rev (s : string) : string := rev_onto s EmptyString.

Fixpoint lstrip (s : string) : string :=
  match s with
  | EmptyString => EmptyString
  | String c s' => if isspace c then lstrip s' else s
  end.

Definition rstrip (s : string) : string := rev (lstrip (rev s)).

(** [s.strip()] *)
Definition strip (s : string) : string := rstrip (lstrip s).

(** [s[:n]] for a natural [n]. *)
Fixpoint take (n : nat) (s : string) : string :=
  match n, s with
  | S n', String c s' => String c (take n' s')
  | _, _ => EmptyString
  end.

(** [s[:n]] for any integer [n]: a negative bound counts from the end. *)
Definition slice_to (s : string) (n : Z) : string :=
  if (0 <=? n)%Z then take (Z.to_nat n) s
  else take (Z.to_nat (Z.of_nat (String.length s) + n)) s.

(** [str(n)] for a natural number and for an integer. *)
Definition of_nat (n : nat) : string := NilZero.string_of_uint (Nat.to_uint n).
Definition of_Z (z : Z) : string := NilZero.string_of_int (Z.to_int z).

(** [sub in s] *)
Fixpoint contains (sub s : string) : bool :=
  prefix sub s ||
  match s with
  | EmptyString => false
  | String _ s' => contains sub s'
  end.

(** [s.split(sep)] for a one-character separator: every occurrence
    separates, and empty pieces are kept.  [cur] is the piece being read,
    reversed. *)
Fixpoint split_on (sep : ascii) (s cur : string) : list string :=
  match s with
  | EmptyString => [rev cur]
  | String c s' =>
      if Ascii.eqb c sep then rev cur :: split_on sep s' EmptyString
      else split_on sep s' (String c cur)
  end.

Definition split (s : string) (sep : ascii) : list string :=
  split_on sep s EmptyString.

(** [re.sub(r'\s+', ' ', s)]: every maximal run of white space becomes one
    space.  [in_run] tells that the previous character was white space. *)
Fixpoint sub_spaces (s : string) (in_run : bool) : string :=
  match s with
  | EmptyString => EmptyString
  | String c s' =>
      if isspace c
      then (if in_run then sub_spaces s' true
            else String " "%char (sub_spaces s' true))
      else String c (sub_spaces s' false)
  end.

(** [re.split(p, s)] for a pattern [p] that never matches the empty string.
    [match_at s] is the length of the match of [p] at the head of [s], if
    there is one; [skip] counts the characters of the current match still
    to be consumed. *)
Fixpoint re_split_go (match_at : string -> option nat)
         (s cur : string) (skip : nat) : list string :=
  match s with
  | EmptyString => [rev cur]
  | String c s' =>
      match skip with
      | S k => re_split_go match_at s' cur k
      | O =>
          match match_at s with
          | Some (S k) => rev cur :: re_split_go match_at s' EmptyString k
          | _ => re_split_go match_at s' (String c cur) 0
          end
      end
  end.

Definition re_split (match_at : string -> option nat) (s : string) : list string :=
  re_split_go match_at s EmptyString 0.

(** The length of the longest prefix of [s] made of characters in [cls],
    and what follows it. *)
Fixpoint span (cls : ascii -> bool) (s : string) : nat * string :=
  match s with
  | EmptyString => (0, EmptyString)
  | String c s' =>
      if cls c then let (n, r) := span cls s' in (S n, r) else (0, s)
  end.

Fixpoint drop_prefix (p s : string) : option string :=
  match p, s with
  | EmptyString, _ => Some s
  | String a p', String b s' => if Ascii.eqb a b then drop_prefix p' s' else None
  | String _ _, EmptyString => None
  end.

Definition is_terminator (c : ascii) : bool :=
  Ascii.eqb c "."%char || Ascii.eqb c "!"%char || Ascii.eqb c "?"%char.

(** [[.!?]+] at the head of [s] *)
Definition match_terminators (s : string) : option nat :=
  match fst (span is_terminator s) with
  | O => None
  | n => Some n
  end.

(** [\s+and\s+] at the head of [s]: both runs of white space are greedy, and
    giving characters back cannot help, since what must follow the first
    run is the letter a and what follows the second is free. *)
Definition match_and (s : string) : option nat :=
  match span isspace s with
  | (S n1, r1) =>
      match drop_prefix "and" r1 with
      | Some r2 =>
          match span isspace r2 with
          | (S n2, _) => Some (S n1 + 3 + S n2)
          | _ => None
          end
      | None => None
      end
  | _ => None
  end.

(** [[,;]|\s+and\s+] at the head of [s]: the alternatives are tried in
    order. *)
Definition match_separator (s : string) : option nat :=
  match s with
  | String c _ =>
      if Ascii.eqb c ","%char || Ascii.eqb c ";"%char then Some 1
      else match_and s
  | EmptyString => None
  end.

End PyStr.

(* ================================================================== *)
(** ** Python values, exceptions and the outside world *)
(* ================================================================== *)

(** The exceptions the model raises.  All of them are instances of
    [Exception], so every [except Exception] clause catches each of them. *)
Variant exn : Type :=
| TypeError | ValueError | KeyError | IndexError | OSError
| RequestException
| OtherException (name : string).

Inductive result (A : Type) : Type :=
| Ok (a : A)
| Raise (e : exn).
Arguments Ok {A} a.
Arguments Raise {A} e.

(** What [json.loads] returns, and what the pipeline builds from it.
    Numbers are finite, and a float is the rational it stands for; the keys
    of a dictionary are distinct. *)
Inductive pyval : Type :=
| PNone
| PBool (b : bool)
| PInt (z : Z)
| PFloat (q : Q)
| PStr (s : string)
| PList (l : list pyval)
| PDict (d : list (string * pyval)).

(** An insertion-ordered dictionary over keys compared by [eqb]. *)
Module ODict.
Section WithKey.
Variables (K V : Type) (eqb : K -> K -> bool).

Fixpoint get (k : K) (d : list (K * V)) : option V :=
  match d with
  | [] => None
  | (k', v) :: d' => if eqb k k' then Some v else get k d'
  end.

Definition mem (k : K) (d : list (K * V)) : bool :=
  match get k d with Some _ => true | None => false end.

(** [d[k] = v]: an existing key keeps its place, a new one goes last. *)
Fixpoint set (k : K) (v : V) (d : list (K * V)) : list (K * V) :=
  match d with
  | [] => [(k, v)]
  | (k', v') :: d' => if eqb k k' then (k', v) :: d' else (k', v') :: set k v d'
  end.

Definition keys (d : list (K * V)) : list K := map fst d.
End WithKey.
End ODict.

Module Py.

Definition isinstance_list (v : pyval) : bool :=
  match v with PList _ => true | _ => false end.

(** [len(v)] *)
Definition len (v : pyval) : result Z :=
  match v with
  | PStr s => Ok (Z.of_nat (String.length s))
  | PList l => Ok (Z.of_nat (List.length l))
  | PDict d => Ok (Z.of_nat (List.length d))
  | _ => Raise TypeError
  end.

(** [v[0]] *)
Definition first (v : pyval) : result pyval :=
  match v with
  | PList (x :: _) => Ok x
  | PList [] => Raise IndexError
  | PStr (String c _) => Ok (PStr (String c EmptyString))
  | PStr EmptyString => Raise IndexError
  | PDict _ => Raise KeyError
  | _ => Raise TypeError
  end.

(** [v[key]] for a string [key] *)
Definition getitem (v : pyval) (key : string) : result pyval :=
  match v with
  | PDict d =>
      match ODict.get String.eqb key d with
      | Some x => Ok x
      | None => Raise KeyError
      end
  | _ => Raise TypeError
  end.

(** [key in v] for a string [key]: a key of a dictionary, an element of a
    list, a substring of a string. *)
Definition contains (key : string) (v : pyval) : result bool :=
  match v with
  | PDict d => Ok (ODict.mem String.eqb key d)
  | PList l =>
      Ok (existsb (fun x => match x with PStr s => String.eqb s key | _ => false end) l)
  | PStr s => Ok (PyStr.contains key s)
  | _ => Raise TypeError
  end.

(** [v[:n] + suffix] for a string [suffix]: only a string can be sliced and
    then extended by a string. *)
Definition slice_to_plus (v : pyval) (n : Z) (suffix : string) : result pyval :=
  match v with
  | PStr s => Ok (PStr (PyStr.slice_to s n ++ suffix))
  | _ => Raise TypeError
  end.

Definition number (v : pyval) : option Q :=
  match v with
  | PBool b => Some (if b then 1%Q else 0%Q)
  | PInt z => Some (inject_Z z)
  | PFloat q => Some q
  | _ => None
  end.

(** Equality of two hashable values as dictionary keys: numbers by value
    ([1 == 1.0 == True]), strings by content. *)
Definition key_eqb (a b : pyval) : bool :=
  match a, b with
  | PNone, PNone => true
  | PStr s, PStr t => String.eqb s t
  | _, _ =>
      match number a, number b with
      | Some x, Some y => Qeq_bool x y
      | _, _ => false
      end
  end.

(** The elements of a list; nothing for any other value. *)
Definition items (v : pyval) : list pyval :=
  match v with PList l => l | _ => [] end.

(** [isinstance(v, list) and len(v) > 0] *)
Definition nonempty_list (v : pyval) : bool :=
  isinstance_list v && (0 <? List.length (items v)).

Definition isinstance_dict (v : pyval) : bool :=
  match v with PDict _ => true | _ => false end.

(** [v[key] = x] for a string [key] *)
Definition setitem (v : pyval) (key : string) (x : pyval) : result pyval :=
  match v with
  | PDict d => Ok (PDict (ODict.set String.eqb key x d))
  | _ => Raise TypeError
  end.

(** [l[i]] for an integer [i]: a negative index counts from the end. *)
Definition index {A} (l : list A) (i : Z) : result A :=
  let j := if (0 <=? i)%Z then i else (Z.of_nat (List.length l) + i)%Z in
  if (j <? 0)%Z then Raise IndexError
  else match nth_error l (Z.to_nat j) with
       | Some x => Ok x
       | None => Raise IndexError
       end.

(** [range(n)] *)
Definition range (n : Z) : list Z := map Z.of_nat (seq 0 (Z.to_nat n)).

(** [range(0, stop, step)] for a positive [step] *)
Definition range_step (stop step : nat) : list nat :=
  map (fun j => j * step) (seq 0 ((stop + step - 1) / step)).

(** [l[i:j]] for natural bounds *)
Definition slice {A} (l : list A) (i j : nat) : list A :=
  firstn (j - i) (skipn i l).

(** [enumerate(l)] *)
Definition enumerate {A} (l : list A) : list (nat * A) :=
  combine (seq 0 (List.length l)) l.

(** [max(l, key=len)] for a non-empty list of strings: the first of the
    longest. *)
Definition max_by_len (first : string) (rest : list string) : string :=
  fold_left (fun best s => if String.length best <? String.length s then s else best)
            rest first.

(** The hashable values, which are the ones a dictionary takes as keys. *)
Variant key : Type :=
| KNone | KBool (b : bool) | KInt (z : Z) | KFloat (q : Q) | KStr (s : string).

Definition to_key (v : pyval) : result key :=
  match v with
  | PNone => Ok KNone
  | PBool b => Ok (KBool b)
  | PInt z => Ok (KInt z)
  | PFloat q => Ok (KFloat q)
  | PStr s => Ok (KStr s)
  | PList _ | PDict _ => Raise TypeError
  end.

Definition of_key (k : key) : pyval :=
  match k with
  | KNone => PNone
  | KBool b => PBool b
  | KInt z => PInt z
  | KFloat q => PFloat q
  | KStr s => PStr s
  end.

Definition key_eq (a b : key) : bool := key_eqb (of_key a) (of_key b).

End Py.

(** Sequencing in [result]. *)
Definition rbind {A B} (r : result A) (k : A -> result B) : result B :=
  match r with
  | Ok a => k a
  | Raise e => Raise e
  end.

Notation "x <~ r ;; k" := (rbind r (fun x => k))
  (at level 61, r at next level, right associativity).

(** One [requests.post(url, headers=..., json=...)]. *)
Record request : Type := {
  req_url : string;
  req_headers : list (string * string);
  req_json : pyval
}.

(** What a [requests.post] does: it raises, or it returns a response with a
    status code and a body; [body = None] is a body that is not JSON, for
    which [response.json()] raises. *)
Variant http_outcome : Type :=
| PostRaises (e : exn)
| Response (status_code : Z) (body : option pyval).

(** The record of what the pipeline did to the outside so far. *)
Record world : Type := {
  posts : list request;              (* the requests sent, oldest first *)
  draws : nat;                       (* how many random numbers were drawn *)
  fits : list (Z * list pyval);      (* the KMeans calls: n_clusters and data *)
  files : list (string * option pyval)
    (* the files opened for writing: [Some v] holds the JSON text of [v],
       [None] was left incomplete by a dump that raised *)
}.

Definition world0 : world := {| posts := []; draws := 0; fits := []; files := [] |}.

(** The outside: the remote inference API, the libraries and the built-ins
    whose code is not part of the repository. *)
Record Env : Type := {
  (* the outcome of the [n]-th request of the run (counting from 0) *)
  remote : nat -> request -> http_outcome;
  (* [KMeans(n_clusters=k, random_state=42, n_init=10).fit_predict(X)] *)
  KMeans_fit_predict : Z -> list pyval -> result (list Z);
  (* the [i]-th number that [np.random.rand] draws *)
  random_rand : nat -> Q;
  (* [datetime.utcnow().isoformat()] *)
  utcnow_isoformat : string;
  (* [open(path, 'w', encoding='utf-8')] for a path that is a string *)
  open_w : string -> result unit;
  (* [json.dump(mindmap, f, indent=2, ensure_ascii=False)] into the file
     opened at a path, and closing the file *)
  json_dump : string -> pyval -> result unit;
  (* NumPy's limit on the number of dimensions of an array, which is never
     below 32 (32 before NumPy 2.0, 64 since) *)
  NPY_MAXDIMS : nat;
  (* [a > b], Python's ordering of two values *)
  py_gt : pyval -> pyval -> result bool;
  (* [str(x)] for a float [x] *)
  float_str : Q -> string
}.

(** Computations that act on the world and may raise. *)
Definition M (A : Type) : Type := world -> result A * world.

Definition ret {A} (a : A) : M A := fun w => (Ok a, w).
Definition raise {A} (e : exn) : M A := fun w => (Raise e, w).
Definition bind {A B} (m : M A) (k : A -> M B) : M B :=
  fun w => match m w with
           | (Ok a, w') => k a w'
           | (Raise e, w') => (Raise e, w')
           end.
Definition lift {A} (r : result A) : M A := fun w => (r, w).

(** [try: m except Exception as e: handler e] *)
Definition try_except {A} (m : M A) (handler : exn -> M A) : M A :=
  fun w => match m w with
           | (Ok a, w') => (Ok a, w')
           | (Raise e, w') => handler e w'
           end.

Notation "x <- m ;; k" := (bind m (fun x => k))
  (at level 61, m at next level, right associativity).
Notation "' pat <- m ;; k" := (bind m (fun x => match x with pat => k end))
  (at level 61, pat pattern, m at next level, right associativity).

(** A [for] loop that updates an accumulator. *)
Fixpoint for_each {A B} (body : B -> A -> M B) (l : list A) (acc : B) : M B :=
  match l with
  | [] => ret acc
  | x :: l' => acc' <- body acc x ;; for_each body l' acc'
  end.

(** The same loop for a body that can raise but does not touch the world. *)
Fixpoint for_each_r {A B} (body : B -> A -> result B) (l : list A) (acc : B) : result B :=
  match l with
  | [] => Ok acc
  | x :: l' =>
      match body acc x with
      | Ok acc' => for_each_r body l' acc'
      | Raise e => Raise e
      end
  end.

(* ================================================================== *)
(** ** [mindmap_pipeline.py]: class [MindMapPipeline] *)
(* ================================================================== *)

Record MindMapPipeline : Type := {
  hf_token : option string;
  headers : list (string * string);
  embedding_url : string;
  classification_url : string;
  summarization_url : string;
  ner_url : string
}.

(** [MindMapPipeline.__init__]; an empty token is falsy, like [None]. *)
Definition MindMapPipeline_init (hf_token : option string) : MindMapPipeline := {|
  hf_token := hf_token;
  headers := match hf_token with
             | Some (String c t) => [("Authorization", ("Bearer " ++ String c t)%string)]
             | _ => []
             end;
  embedding_url := "https://api-inference.huggingface.co/models/sentence-transformers/all-MiniLM-L6-v2";
  classification_url := "https://api-inference.huggingface.co/models/facebook/bart-large-mnli";
  summarization_url := "https://api-inference.huggingface.co/models/facebook/bart-large-cnn";
  ner_url := "https://api-inference.huggingface.co/models/dslim/bert-base-NER"
|}.

(** The vocabulary of [classify_clusters]. *)
Definition candidate_labels : list string :=
  ["Business"; "Technology"; "Marketing"; "Finance"; "Education";
   "Health"; "Entertainment"; "Travel"; "Food"; "Sports";
   "Science"; "Art"; "Music"; "Politics"; "Environment"].

(** [preprocess_text] *)
Definition preprocess_text (text : string) : list string :=
  let text := PyStr.sub_spaces (PyStr.strip text) false in
  let sentences := PyStr.re_split PyStr.match_terminators text in
  let sentences :=
    map PyStr.strip (filter (fun s => 10 <? String.length (PyStr.strip s)) sentences) in
  fold_left
    (fun phrases sentence =>
       let sub_phrases := PyStr.re_split PyStr.match_separator sentence in
       phrases ++ map PyStr.strip
                      (filter (fun p => 5 <? String.length (PyStr.strip p)) sub_phrases))
    sentences [].

(** The grouping loop of [merge_results]: [clusters] maps a cluster id to
    its texts, in the order the ids are first met. *)
Definition group_step (clusters : list (Z * list string)) (tc : string * Z)
  : list (Z * list string) :=
  let (text, cluster_id) := tc in
  let clusters :=
    if ODict.mem Z.eqb cluster_id clusters then clusters
    else ODict.set Z.eqb cluster_id [] clusters in
  match ODict.get Z.eqb cluster_id clusters with
  | Some cluster_texts => ODict.set Z.eqb cluster_id (cluster_texts ++ [text]) clusters
  | None => clusters
  end.

Definition group_texts (texts : list string) (cluster_labels : list Z)
  : list (Z * list string) :=
  fold_left group_step (combine texts cluster_labels) [].

(** The grouping loop over the entities. *)
Definition entity_step (entity_clusters : list (Py.key * list pyval)) (entity : pyval)
  : result (list (Py.key * list pyval)) :=
  label <~ Py.getitem entity "label" ;;
  label <~ Py.to_key label ;;
  let entity_clusters :=
    if ODict.mem Py.key_eq label entity_clusters then entity_clusters
    else ODict.set Py.key_eq label [] entity_clusters in
  match ODict.get Py.key_eq label entity_clusters with
  | Some entity_texts =>
      text <~ Py.getitem entity "text" ;;
      Ok (ODict.set Py.key_eq label (entity_texts ++ [text]) entity_clusters)
  | None => Raise KeyError
  end.

Definition group_entities (entities : list pyval) : result (list (Py.key * list pyval)) :=
  for_each_r entity_step entities [].

(** The body of the loop of [extract_entities]. *)
Definition extract_step (entities : list pyval) (item : pyval) : result (list pyval) :=
  has_entity <~ Py.contains "entity" item ;;
  has_word <~ (if has_entity then Py.contains "word" item else Ok false) ;;
  if has_word then
    word <~ Py.getitem item "word" ;;
    entity <~ Py.getitem item "entity" ;;
    Ok (entities ++ [PDict [("text", word); ("label", entity)]])
  else Ok entities.

(** The members of cluster [i]:
    [[phrases[j] for j in range(len(phrases)) if cluster_labels[j] == i]] *)
Definition members (phrases : list string) (cluster_labels : list Z) (i : Z)
  : result (list string) :=
  for_each_r
    (fun cluster_texts jp =>
       let '(j, phrase) := jp in
       label <~ Py.index cluster_labels (Z.of_nat j) ;;
       Ok (if (label =? i)%Z then cluster_texts ++ [phrase] else cluster_texts))
    (Py.enumerate phrases) [].

Definition representative_step (phrases : list string) (cluster_labels : list Z)
           (cluster_representatives : list string) (i : Z) : result (list string) :=
  cluster_texts <~ members phrases cluster_labels i ;;
  match cluster_texts with
  | first :: rest => Ok (cluster_representatives ++ [Py.max_by_len first rest])
  | [] => Ok (cluster_representatives ++ [""])
  end.

(** NumPy is outside the repository; this is what [np.array] makes of the
    values of the model. *)
Module NumPy.

Fixpoint dims_eqb (a b : list nat) : bool :=
  match a, b with
  | [], [] => true
  | x :: a', y :: b' => (x =? y) && dims_eqb a' b'
  | _, _ => false
  end.

Definition same_shape (a b : option (list nat)) : bool :=
  match a, b with
  | Some x, Some y => dims_eqb x y
  | _, _ => false
  end.

(** The shape [np.array] finds for a value: a list has the shape
    [len :: s] when its elements all have the shape [s], the empty list has
    the shape [[0]], and a list whose elements differ in shape has none.
    Strings, numbers, booleans, [None] and dictionaries are scalars. *)
Fixpoint shape (v : pyval) : option (list nat) :=
  match v with
  | PList items =>
      match map shape items with
      | [] => Some [0]
      | first :: rest =>
          match first with
          | Some dims =>
              if forallb (same_shape first) rest
              then Some (List.length items :: dims) else None
          | None => None
          end
      end
  | _ => Some []
  end.

End NumPy.

Section Pipeline.

Variable E : Env.
Variable self : MindMapPipeline.

(** [requests.post]: the request is recorded, and the remote answers. *)
Definition requests_post (url : string) (json : pyval) : M (Z * option pyval) :=
  fun w =>
    let r := {| req_url := url; req_headers := headers self; req_json := json |} in
    let w' := {| posts := posts w ++ [r]; draws := draws w;
                 fits := fits w; files := files w |} in
    match remote E (List.length (posts w)) r with
    | PostRaises e => (Raise e, w')
    | Response status_code body => (Ok (status_code, body), w')
    end.

(** [response.json()] *)
Definition response_json (response : Z * option pyval) : M pyval :=
  match snd response with
  | Some v => ret v
  | None => raise ValueError
  end.

(** The list of the [n] numbers drawn after the first [d]. *)
Definition random_vector (d n : nat) : pyval :=
  PList (map (fun j => PFloat (random_rand E (d + j))) (seq 0 n)).

(** [np.random.rand(n).tolist()] *)
Definition np_random_rand_tolist (n : nat) : M pyval :=
  fun w =>
    (Ok (random_vector (draws w) n),
     {| posts := posts w; draws := draws w + n; fits := fits w; files := files w |}).

(** [np.array(l)].  An array is represented by the list of its entries
    along the first axis, so that [len] of the array is the length of the
    list.  As NumPy does since 1.24, [np.array] raises [ValueError] when the
    entries differ in shape, at any depth, and when the nesting exceeds the
    limit on the number of dimensions. *)
Definition np_array (l : list pyval) : result (list pyval) :=
  match NumPy.shape (PList l) with
  | Some dims =>
      if List.length dims <=? Nat.max 32 (NPY_MAXDIMS E) then Ok l else Raise ValueError
  | None => Raise ValueError
  end.

(** [KMeans(n_clusters=k, random_state=42, n_init=10).fit_predict(X)] *)
Definition KMeans_call (k : Z) (X : list pyval) : M (list Z) :=
  fun w =>
    (KMeans_fit_predict E k X,
     {| posts := posts w; draws := draws w; fits := fits w ++ [(k, X)]; files := files w |}).

(** The body of the loop of [get_embeddings]: every branch appends to
    [embeddings]. *)
Definition get_embeddings_step (embeddings : list pyval) (text : string) : M (list pyval) :=
  try_except
    (response <- requests_post (embedding_url self) (PDict [("inputs", PStr text)]) ;;
     if (fst response =? 200)%Z then
       embedding <- response_json response ;;
       if Py.nonempty_list embedding then
         e0 <- lift (Py.first embedding) ;;
         ret (embeddings ++ [e0])
       else
         v <- np_random_rand_tolist 384 ;;
         ret (embeddings ++ [v])
     else
       v <- np_random_rand_tolist 384 ;;
       ret (embeddings ++ [v]))
    (fun _ =>
       v <- np_random_rand_tolist 384 ;;
       ret (embeddings ++ [v])).

Definition get_embeddings (texts : list string) : M (list pyval) :=
  embeddings <- for_each get_embeddings_step texts [] ;;
  lift (np_array embeddings).

(** [cluster_embeddings]; [n_clusters = None] asks for the automatic count. *)
Definition cluster_embeddings (embeddings : list pyval) (n_clusters : option Z)
  : M (list Z * Z) :=
  let n := Z.of_nat (List.length embeddings) in
  let n_clusters :=
    match n_clusters with
    | None =>
        let max_clusters := Z.min 10 (Z.max 2 (n / 2)) in
        Z.max 2 (Z.min max_clusters n)
    | Some k => k
    end in
  let n_clusters := if (n <? n_clusters)%Z then n else n_clusters in
  cluster_labels <- KMeans_call n_clusters embeddings ;;
  ret (cluster_labels, n_clusters).

(** [max(result, key=lambda x: x['score'])] *)
Definition max_by_score (results : list pyval) : result pyval :=
  match results with
  | [] => Raise ValueError
  | x :: rest =>
      maxval <~ Py.getitem x "score" ;;
      best <~ for_each_r
                (fun (best : pyval * pyval) item =>
                   val <~ Py.getitem item "score" ;;
                   gt <~ py_gt E val (snd best) ;;
                   Ok (if gt : bool then (item, val) else best))
                rest (x, maxval) ;;
      Ok (fst best)
  end.

Definition fallback_label (i : nat) : pyval := PStr ("Cluster " ++ PyStr.of_nat (i + 1)).

(** The body of the loop of [classify_clusters]. *)
Definition classify_step (classified_labels : list pyval) (it : nat * string)
  : M (list pyval) :=
  let (i, cluster_text) := it in
  try_except
    (response <- requests_post (classification_url self)
                   (PDict [("inputs", PStr cluster_text);
                           ("parameters",
                            PDict [("candidate_labels", PList (map PStr candidate_labels))])]) ;;
     if (fst response =? 200)%Z then
       result <- response_json response ;;
       if Py.nonempty_list result then
         best_label <- lift (max_by_score (Py.items result)) ;;
         label <- lift (Py.getitem best_label "label") ;;
         ret (classified_labels ++ [label])
       else ret (classified_labels ++ [fallback_label i])
     else ret (classified_labels ++ [fallback_label i]))
    (fun _ => ret (classified_labels ++ [fallback_label i])).

Definition classify_clusters (cluster_texts : list string) (cluster_labels : list string)
  : M (list pyval) :=
  for_each classify_step (Py.enumerate cluster_texts) [].

(** [text[:max_length] + "..."] *)
Definition truncated (text : pyval) (max_length : Z) : M pyval :=
  lift (Py.slice_to_plus text max_length "...").

(** [summarize_text] *)
Definition summarize_text (text : pyval) (max_length : Z) : M pyval :=
  n <- lift (Py.len text) ;;
  if (n <=? max_length)%Z then ret text
  else
    try_except
      (response <- requests_post (summarization_url self)
                     (PDict [("inputs", text);
                             ("parameters",
                              PDict [("max_length", PInt max_length);
                                     ("min_length", PInt 10)])]) ;;
       if (fst response =? 200)%Z then
         result <- response_json response ;;
         if Py.nonempty_list result then
           r0 <- lift (Py.first result) ;;
           lift (Py.getitem r0 "summary_text")
         else truncated text max_length
       else truncated text max_length)
      (fun _ => truncated text max_length).

(** [extract_entities] *)
Definition extract_entities (text : string) : M (list pyval) :=
  try_except
    (response <- requests_post (ner_url self) (PDict [("inputs", PStr text)]) ;;
     if (fst response =? 200)%Z then
       result <- response_json response ;;
       if Py.isinstance_list result then
         lift (for_each_r extract_step (Py.items result) [])
       else ret []
     else ret [])
    (fun _ => ret []).

(** [str(label)] inside an f-string, for a label that is a dictionary key. *)
Definition key_str (k : Py.key) : string :=
  match k with
  | Py.KNone => "None"
  | Py.KBool true => "True"
  | Py.KBool false => "False"
  | Py.KInt z => PyStr.of_Z z
  | Py.KFloat q => float_str E q
  | Py.KStr s => s
  end.

(** The inner loop of [merge_results] over the first five texts of a
    cluster. *)
Definition cluster_child_step (cluster_children : list pyval) (text : string)
  : M (list pyval) :=
  text <- (if 50 <? String.length text then summarize_text (PStr text) 50
           else ret (PStr text)) ;;
  ret (cluster_children ++ [text]).

(** The child that [merge_results] builds for one cluster. *)
Definition cluster_node (classified_labels : list pyval) (item : Z * list string)
  : M pyval :=
  let (cluster_id, cluster_texts) := item in
  cluster_name <- lift (Py.index classified_labels cluster_id) ;;
  n <- lift (Py.len cluster_name) ;;
  cluster_name <- (if (30 <? n)%Z then summarize_text cluster_name 30
                   else ret cluster_name) ;;
  cluster_children <- for_each cluster_child_step (firstn 5 cluster_texts) [] ;;
  ret (PDict [("node", cluster_name); ("children", PList cluster_children)]).

(** The body of the loop of [merge_results] over [clusters.items()]: a
    cluster whose id is not below the number of labels is passed over. *)
Definition cluster_node_step (classified_labels : list pyval) (children : list pyval)
           (item : Z * list string) : M (list pyval) :=
  if (fst item <? Z.of_nat (List.length classified_labels))%Z then
    node <- cluster_node classified_labels item ;;
    ret (children ++ [node])
  else ret children.

(** The body of the loop over [entity_clusters.items()]. *)
Definition entity_node (item : Py.key * list pyval) : pyval :=
  let (label, entity_texts) := item in
  PDict [("node", PStr ("Entities (" ++ key_str label ++ ")"));
         ("children", PList (firstn 5 entity_texts))].

(** [merge_results] *)
Definition merge_results (texts : list string) (cluster_labels : list Z)
           (classified_labels : list pyval) (entities : list pyval) : M pyval :=
  let clusters := group_texts texts cluster_labels in
  children <- for_each (cluster_node_step classified_labels) clusters [] ;;
  children <- (match entities with
               | [] => ret children
               | _ :: _ =>
                   entity_clusters <- lift (group_entities entities) ;;
                   ret (fold_left (fun children item => children ++ [entity_node item])
                                  entity_clusters children)
               end) ;;
  ret (PDict [("root", PStr "Mind Map"); ("children", PList children)]).

(** [with open(output_file, 'w', encoding='utf-8') as f: json.dump(mindmap, f, ...)];
    [open] refuses a path that is [None].  Once [open] has returned, the
    file exists: a dump that raises leaves it incomplete. *)
Definition save (output_file : option string) (mindmap : pyval) : M unit :=
  match output_file with
  | None => raise TypeError
  | Some path =>
      fun w =>
        match open_w E path with
        | Raise e => (Raise e, w)
        | Ok _ =>
            match json_dump E path mindmap with
            | Ok _ =>
                (Ok tt, {| posts := posts w; draws := draws w; fits := fits w;
                           files := files w ++ [(path, Some mindmap)] |})
            | Raise e =>
                (Raise e, {| posts := posts w; draws := draws w; fits := fits w;
                             files := files w ++ [(path, None)] |})
            end
        end
  end.

(** [process_text] *)
Definition process_text (text : string) (output_file : option string) : M pyval :=
  (* Step 1: Preprocess *)
  let phrases := preprocess_text text in
  (* Step 2: Get embeddings *)
  embeddings <- get_embeddings phrases ;;
  (* Step 3: Cluster embeddings *)
  '(cluster_labels, n_clusters) <- cluster_embeddings embeddings None ;;
  (* Step 4: Classify clusters *)
  cluster_representatives <-
    lift (for_each_r (representative_step phrases cluster_labels) (Py.range n_clusters) []) ;;
  classified_labels <-
    classify_clusters cluster_representatives
      (map (fun i => ("Cluster " ++ PyStr.of_Z (i + 1))%string) (Py.range n_clusters)) ;;
  (* Step 5: Extract entities *)
  entities <- extract_entities text ;;
  (* Step 6: Merge results *)
  mindmap <- merge_results phrases cluster_labels classified_labels entities ;;
  (* Step 7: Save and return *)
  _ <- save output_file mindmap ;;
  ret mindmap.

End Pipeline.

(* ================================================================== *)
(** ** [services/ai_pipeline.py]: class [AIPipelineService] *)
(* ================================================================== *)

Record AIPipelineService : Type := { pipeline : MindMapPipeline }.

Definition AIPipelineService_init (hf_token : option string) : AIPipelineService :=
  {| pipeline := MindMapPipeline_init hf_token |}.

(** The loop of [_create_fallback_mindmap] over [range(0, len(sentences), chunk_size)]. *)
Definition fallback_step (sentences : list string) (chunk_size : nat)
           (clusters : list pyval) (i : nat) : list pyval :=
  let chunk := Py.slice sentences i (i + chunk_size) in
  match chunk with
  | [] => clusters
  | _ :: _ =>
      clusters ++ [PDict [("node", PStr ("Topic " ++ PyStr.of_nat (List.length clusters + 1)));
                          ("children", PList (map PStr (firstn 5 chunk)))]]
  end.

Definition fallback_sentences (text : string) : list string :=
  map PyStr.strip
      (filter (fun s => negb (String.eqb (PyStr.strip s) "")) (PyStr.split text "."%char)).

Definition fallback_clusters (sentences : list string) : list pyval :=
  let chunk_size := Nat.max 1 (List.length sentences / 3) in
  fold_left (fallback_step sentences chunk_size)
            (Py.range_step (List.length sentences) chunk_size) [].

Section Service.

Variable E : Env.
Variable self : AIPipelineService.

(** [_create_fallback_mindmap] *)
Definition _create_fallback_mindmap (text : string) : pyval :=
  let sentences := fallback_sentences text in
  let clusters := fallback_clusters sentences in
  PDict [("root", PStr "Mind Map");
         ("children", PList clusters);
         ("generated_at", PStr (utcnow_isoformat E));
         ("source_text_length", PInt (Z.of_nat (String.length text)));
         ("ai_processed", PBool false);
         ("fallback_mode", PBool true)].

(** [process_text_to_mindmap] *)
Definition process_text_to_mindmap (text : string) : M pyval :=
  try_except
    (mindmap_data <- process_text E (pipeline self) text None ;;
     if negb (Py.isinstance_dict mindmap_data) then raise ValueError
     else
       mindmap_data <- lift (Py.setitem mindmap_data "generated_at"
                                        (PStr (utcnow_isoformat E))) ;;
       mindmap_data <- lift (Py.setitem mindmap_data "source_text_length"
                                        (PInt (Z.of_nat (String.length text)))) ;;
       mindmap_data <- lift (Py.setitem mindmap_data "ai_processed" (PBool true)) ;;
       ret mindmap_data)
    (fun _ => ret (_create_fallback_mindmap text)).

End Service.

(* ================================================================== *)
(** ** Concrete outsides, for the examples *)
(* ================================================================== *)

Module Scenario.

(** A clustering that checks its input the way scikit-learn's KMeans does
    (at least one cluster, and no more clusters than points) and then deals
    the points out in turn. *)
Definition round_robin (k : Z) (X : list pyval) : result (list Z) :=
  if ((k <? 1) || (Z.of_nat (List.length X) <? k))%Z then Raise ValueError
  else Ok (map (fun i => (Z.of_nat i mod k)%Z) (seq 0 (List.length X))).

(** [a > b] on two numbers, by value, and on two strings, in the order of
    their characters; a number against a string, [None] and dictionaries
    are a [TypeError].  The examples compare no lists. *)
Definition number_gt (a b : pyval) : result bool :=
  match a, b with
  | PStr x, PStr y => Ok (String.ltb y x)
  | _, _ =>
      match Py.number a, Py.number b with
      | Some x, Some y => Ok (negb (Qle_bool x y))
      | _, _ => Raise TypeError
      end
  end.

(** The outside in which every request answers [answer]. *)
Definition answering (answer : http_outcome) : Env := {|
  remote := fun _ _ => answer;
  KMeans_fit_predict := round_robin;
  random_rand := fun i => inject_Z (Z.of_nat i);
  utcnow_isoformat := "2024-01-01T00:00:00";
  open_w := fun _ => Ok tt;
  json_dump := fun _ _ => Ok tt;
  NPY_MAXDIMS := 32;
  py_gt := number_gt;
  float_str := fun _ => "0.5"
|}.

(** No network: every request raises. *)
Definition offline : Env := answering (PostRaises RequestException).

(** The outside in which the first request answers [first] and every later
    one [rest]. *)
Definition first_then (first rest : http_outcome) : Env := {|
  remote := fun n _ => match n with 0 => first | S _ => rest end;
  KMeans_fit_predict := round_robin;
  random_rand := fun i => inject_Z (Z.of_nat i);
  utcnow_isoformat := "2024-01-01T00:00:00";
  open_w := fun _ => Ok tt;
  json_dump := fun _ _ => Ok tt;
  NPY_MAXDIMS := 32;
  py_gt := number_gt;
  float_str := fun _ => "0.5"
|}.

(** The service as [main.py] builds it: [AIPipelineService()]. *)
Definition service : AIPipelineService := AIPipelineService_init None.

Definition hundred : string :=
  "0123456789012345678901234567890123456789012345678901234567890123456789012345678901234567890123456789".

End Scenario.

(* ================================================================== *)
(** ** The vocabulary of the properties *)
(* ================================================================== *)

(** The request [get_embeddings] sends for one phrase. *)
Definition embedding_request (self : MindMapPipeline) (text : string) : request :=
  {| req_url := embedding_url self; req_headers := headers self;
     req_json := PDict [("inputs", PStr text)] |}.

(** The ways an embedding call fails: the request raises, the status is not
    200, the body is not JSON, is not a list, or is the empty list. *)
Inductive embedding_failure : http_outcome -> Prop :=
| EF_raises e : embedding_failure (PostRaises e)
| EF_status s b : s <> 200%Z -> embedding_failure (Response s b)
| EF_not_json : embedding_failure (Response 200 None)
| EF_not_list v : Py.isinstance_list v = false -> embedding_failure (Response 200 (Some v))
| EF_empty : embedding_failure (Response 200 (Some (PList []))).

(** The number of floats of a flat vector. *)
Definition vector_dim (v : pyval) : option nat :=
  match v with
  | PList l =>
      if forallb (fun x => match x with PFloat _ => true | _ => false end) l
      then Some (List.length l) else None
  | _ => None
  end.

(** A vector of 384 floats drawn from the random generator. *)
Definition synthetic_384 (E : Env) (v : pyval) : Prop :=
  (exists d, v = random_vector E d 384) /\ vector_dim v = Some 384.

(** What the entry appended for a phrase must be, given the outcome of its
    request. *)
Definition entry_for (E : Env) (outcome : http_outcome) (v : pyval) : Prop :=
  (embedding_failure outcome -> synthetic_384 E v) /\
  (forall x rest, outcome = Response 200 (Some (PList (x :: rest))) -> v = x).

(** A flat list: none of its elements is a list. *)
Definition flat (l : list pyval) : bool :=
  forallb (fun x => negb (Py.isinstance_list x)) l.

(** A 200 response whose body is a nested list that holds a flat list of
    384 elements first. *)
Definition nested_384 (outcome : http_outcome) : Prop :=
  exists inner rest,
    outcome = Response 200 (Some (PList (PList inner :: rest)))
    /\ flat inner = true /\ List.length inner = 384.

(** The request [classify_clusters] sends for one representative text. *)
Definition classification_request (self : MindMapPipeline) (cluster_text : string) : request :=
  {| req_url := classification_url self; req_headers := headers self;
     req_json := PDict [("inputs", PStr cluster_text);
                        ("parameters",
                         PDict [("candidate_labels", PList (map PStr candidate_labels))])] |}.

(** The request [summarize_text] sends. *)
Definition summarization_request (self : MindMapPipeline) (text : pyval) (max_length : Z)
  : request :=
  {| req_url := summarization_url self; req_headers := headers self;
     req_json := PDict [("inputs", text);
                        ("parameters",
                         PDict [("max_length", PInt max_length); ("min_length", PInt 10)])] |}.

(** The ways a summarization call fails: the request raises, the status is
    not 200, the body is not JSON, is not a list, is the empty list, or its
    first element has no ['summary_text']. *)
Inductive summarization_failure : http_outcome -> Prop :=
| SF_raises e : summarization_failure (PostRaises e)
| SF_status s b : s <> 200%Z -> summarization_failure (Response s b)
| SF_not_json : summarization_failure (Response 200 None)
| SF_not_list v : Py.isinstance_list v = false -> summarization_failure (Response 200 (Some v))
| SF_empty : summarization_failure (Response 200 (Some (PList [])))
| SF_no_summary x rest e :
    Py.getitem x "summary_text" = Raise e ->
    summarization_failure (Response 200 (Some (PList (x :: rest)))).

(** The distinct elements of [l], each at the place of its first
    occurrence. *)
Fixpoint first_occurrences {K} (eqb : K -> K -> bool) (l : list K) : list K :=
  match l with
  | [] => []
  | x :: l' => x :: filter (fun y => negb (eqb x y)) (first_occurrences eqb l')
  end.

(** The clusters for which [merge_results] has a label. *)
Definition labelled_clusters (classified_labels : list pyval)
           (clusters : list (Z * list string)) : list (Z * list string) :=
  filter (fun item => (fst item <? Z.of_nat (List.length classified_labels))%Z) clusters.

(** [node] is the child that [merge_results] builds for the cluster [item],
    in some state of the outside. *)
Definition built_from (E : Env) (self : MindMapPipeline) (classified_labels : list pyval)
           (item : Z * list string) (node : pyval) : Prop :=
  exists w1 w2, cluster_node E self classified_labels item w1 = (Ok node, w2).

(** [k in ks] and what a key list becomes when a dictionary with these keys
    is assigned at [k]. *)
Definition key_in {K} (eqb : K -> K -> bool) (k : K) (ks : list K) : bool :=
  existsb (eqb k) ks.

Definition add_key {K} (eqb : K -> K -> bool) (ks : list K) (k : K) : list K :=
  if key_in eqb k ks then ks else ks ++ [k].

(** The category of an entity, as a dictionary key. *)
Definition label_of (entity : pyval) : result Py.key :=
  label <~ Py.getitem entity "label" ;; Py.to_key label.

(** The shape of a MindMapDocument: a root name, children that each carry
    a name and a list of strings, and the metadata of the service. *)
Definition is_str (v : pyval) : bool :=
  match v with PStr _ => true | _ => false end.

Definition is_node (v : pyval) : bool :=
  match Py.getitem v "node", Py.getitem v "children" with
  | Ok (PStr _), Ok (PList items) => forallb is_str items
  | _, _ => false
  end.

Definition is_mindmap_document (v : pyval) : bool :=
  match Py.getitem v "root", Py.getitem v "children" with
  | Ok (PStr _), Ok (PList nodes) =>
      forallb is_node nodes
      && match Py.getitem v "generated_at", Py.getitem v "source_text_length",
               Py.getitem v "ai_processed" with
         | Ok (PStr _), Ok (PInt _), Ok (PBool _) => true
         | _, _, _ => false
         end
  | _, _ => false
  end.

(** A document, three entities and the rest of a small [merge_results]
    run. *)
Definition two_entities : list pyval :=
  [PDict [("text", PStr "Paris"); ("label", PStr "LOC")];
   PDict [("text", PStr "Alice"); ("label", PStr "PER")];
   PDict [("text", PStr "Rome"); ("label", PStr "LOC")]].

Unset Implicit Arguments.

(** Whether every character of [s] satisfies [P]. *)
Fixpoint all_chars (P : ascii -> bool) (s : string) : bool :=
  match s with
  | EmptyString => true
  | String c s' => P c && all_chars P s'
  end.

(** The characters a phrase of [preprocess_text] can hold: no sentence
    terminator, no comma, no semicolon, and no white space but the plain
    space. *)
Definition phrase_char (c : ascii) : bool :=
  negb (PyStr.is_terminator c)
  && negb (Ascii.eqb c ","%char || Ascii.eqb c ";"%char)
  && (negb (PyStr.isspace c) || Ascii.eqb c " "%char).

(** A string that does not start with white space. *)
Definition starts_clean (s : string) : bool :=
  match s with
  | EmptyString => true
  | String c _ => negb (PyStr.isspace c)
  end.

(** A string in which no two white-space characters are next to each
    other. *)
Fixpoint single_spaced (s : string) : bool :=
  match s with
  | EmptyString => true
  | String c s' => (negb (PyStr.isspace c) || starts_clean s') && single_spaced s'
  end.


(** The ways a classification call fails: the request raises, the status is
    not 200, the body is not JSON, is not a list, is the empty list, the
    scores cannot be read or compared, or the best entry has no label. *)
Inductive classification_failure (E : Env) : http_outcome -> Prop :=
| CF_raises e : classification_failure E (PostRaises e)
| CF_status s b : s <> 200%Z -> classification_failure E (Response s b)
| CF_not_json : classification_failure E (Response 200 None)
| CF_not_list v :
    Py.isinstance_list v = false -> classification_failure E (Response 200 (Some v))
| CF_empty : classification_failure E (Response 200 (Some (PList [])))
| CF_unscored l e :
    max_by_score E l = Raise e -> classification_failure E (Response 200 (Some (PList l)))
| CF_unlabelled l best e :
    max_by_score E l = Ok best -> Py.getitem best "label" = Raise e ->
    classification_failure E (Response 200 (Some (PList l))).





(** The summary a summarization answer carries: the ['summary_text'] of the
    first element of a 200 list body. *)
Definition summary_of (outcome : http_outcome) : option pyval :=
  match outcome with
  | Response status (Some (PList (x :: _))) =>
      if (status =? 200)%Z then
        match Py.getitem x "summary_text" with
        | Ok summary => Some summary
        | Raise _ => None
        end
      else None
  | _ => None
  end.


(** The request [extract_entities] sends. *)
Definition ner_request (self : MindMapPipeline) (text : string) : request :=
  {| req_url := ner_url self; req_headers := headers self;
     req_json := PDict [("inputs", PStr text)] |}.

(** The ways a named-entity call fails: the request raises, the status is
    not 200, the body is not JSON, or is not a list. *)
Inductive ner_failure : http_outcome -> Prop :=
| NF_raises e : ner_failure (PostRaises e)
| NF_status s b : s <> 200%Z -> ner_failure (Response s b)
| NF_not_json : ner_failure (Response 200 None)
| NF_not_list v : Py.isinstance_list v = false -> ner_failure (Response 200 (Some v)).

(** The entity made from one item of a named-entity answer that is a
    dictionary: the item needs both an ['entity'] and a ['word']. *)
Definition entity_of (fields : list (string * pyval)) : list pyval :=
  match ODict.get String.eqb "entity" fields, ODict.get String.eqb "word" fields with
  | Some entity, Some word => [PDict [("text", word); ("label", entity)]]
  | _, _ => []
  end.

(** A value that is neither a dictionary, nor a list, nor a string. *)
Definition is_scalar (v : pyval) : bool :=
  match v with
  | PNone | PBool _ | PInt _ | PFloat _ => true
  | _ => false
  end.


(** The texts assigned to cluster [c], in the order of the phrase list. *)
Definition texts_of_cluster (texts : list string) (cluster_labels : list Z) (c : Z)
  : list string :=
  map fst (filter (fun tc => (snd tc =? c)%Z) (combine texts cluster_labels)).

(** The items under one child of a document. *)
Definition node_items (node : pyval) : list pyval :=
  match Py.getitem node "children" with
  | Ok (PList items) => items
  | _ => []
  end.


(** A computation that writes no file. *)
Definition keeps_files {A} (m : M A) : Prop :=
  forall w, files (snd (m w)) = files w.


(** The topic that [_create_fallback_mindmap] makes from the chunk number
    [j] (counted from 0) of [sentences]. *)
Definition topic (sentences : list string) (chunk_size j : nat) : pyval :=
  PDict [("node", PStr ("Topic " ++ PyStr.of_nat (j + 1)));
         ("children",
          PList (map PStr (firstn 5 (Py.slice sentences (j * chunk_size)
                                              (j * chunk_size + chunk_size)))))].


(* ================================================================== *)
(** ** [services/ai_pipeline.py]: the status functions *)
(* ================================================================== *)

Section Status.

Variable E : Env.
Variable self : AIPipelineService.
(** [str(e)], the message of an exception. *)
Variable str_exn : exn -> string.

(** [get_ai_status] *)
Definition get_ai_status : pyval :=
  PDict [("status", PStr "operational");
         ("models",
          PDict [("embeddings", PStr "sentence-transformers/all-MiniLM-L6-v2");
                 ("classification", PStr "facebook/bart-large-mnli");
                 ("summarization", PStr "facebook/bart-large-cnn");
                 ("ner", PStr "dslim/bert-base-NER")]);
         ("api_endpoints",
          PDict [("embeddings", PStr "https://api-inference.huggingface.co/models/sentence-transformers/all-MiniLM-L6-v2");
                 ("classification", PStr "https://api-inference.huggingface.co/models/facebook/bart-large-mnli");
                 ("summarization", PStr "https://api-inference.huggingface.co/models/facebook/bart-large-cnn");
                 ("ner", PStr "https://api-inference.huggingface.co/models/dslim/bert-base-NER")]);
         ("last_updated", PStr (utcnow_isoformat E))].

Definition test_text : string := "This is a test for AI services.".

(** [{"status": "error", "error": str(e)}] *)
Definition error_entry (e : exn) : pyval :=
  PDict [("status", PStr "error"); ("error", PStr (str_exn e))].

(** The four [try] blocks of [test_ai_services]; each returns the entry it
    stores in [test_results]. *)
Definition test_embeddings : M pyval :=
  try_except
    (embeddings <- get_embeddings E (pipeline self) [test_text] ;;
     dimension <- (match embeddings with
                   | [] => ret 0%Z
                   | _ :: _ =>
                       e0 <- lift (Py.index embeddings 0) ;;
                       lift (Py.len e0)
                   end) ;;
     ret (PDict [("status", PStr "success"); ("embedding_dimension", PInt dimension)]))
    (fun e => ret (error_entry e)).

Definition test_classification : M pyval :=
  try_except
    (classification <- classify_clusters E (pipeline self) [test_text] ["test"] ;;
     ret (PDict [("status", PStr "success");
                 ("result", match classification with
                            | first :: _ => first
                            | [] => PStr "unknown"
                            end)]))
    (fun e => ret (error_entry e)).

Definition test_summarization : M pyval :=
  try_except
    (summary <- summarize_text E (pipeline self) (PStr test_text) 20 ;;
     ret (PDict [("status", PStr "success"); ("summary", summary)]))
    (fun e => ret (error_entry e)).

Definition test_ner : M pyval :=
  try_except
    (entities <- extract_entities E (pipeline self) test_text ;;
     ret (PDict [("status", PStr "success");
                 ("entities_found", PInt (Z.of_nat (List.length entities)))]))
    (fun e => ret (error_entry e)).

(** [result["status"] == "success"] *)
Definition succeeded (entry : pyval) : result bool :=
  status <~ Py.getitem entry "status" ;;
  Ok (match status with PStr s => String.eqb s "success" | _ => false end).

(** [test_ai_services] *)
Definition test_ai_services : M pyval :=
  embeddings <- test_embeddings ;;
  classification <- test_classification ;;
  summarization <- test_summarization ;;
  ner <- test_ner ;;
  let test_results :=
    [("embeddings", embeddings); ("classification", classification);
     ("summarization", summarization); ("ner", ner)] in
  all_succeeded <- lift (for_each_r (fun ok entry =>
                                       if ok : bool then succeeded entry else Ok false)
                                    (map snd test_results) true) ;;
  ret (PDict [("test_results", PDict test_results);
              ("overall_status",
               PStr (if all_succeeded : bool then "operational" else "degraded"));
              ("tested_at", PStr (utcnow_isoformat E))]).

End Status.


(* ================================================================== *)
(** ** [mindmap_pipeline.py]: the command line *)
(* ================================================================== *)

(** What [parser.parse_args()] returns. *)
Record Args : Type := {
  arg_text : option string;
  arg_file : option string;
  arg_output : string;
  arg_token : option string
}.

(** How [main] ends: it returns, [sys.exit] is called, or an exception
    leaves it. *)
Variant ending : Type :=
| Returns
| SystemExit (code : Z)
| Uncaught (e : exn).

(** An argument that is given and not empty: [if args.text:]. *)
Definition given (arg : option string) : option string :=
  match arg with
  | Some (String c s) => Some (String c s)
  | _ => None
  end.

Definition nl : string := String (ascii_of_nat 10) EmptyString.

(** The example text of [main]. *)
Definition default_text : string :=
  (nl ++
     "        I need to plan my marketing strategy for the new product launch. " ++
     nl ++
     "        We should focus on social media marketing, especially TikTok and Instagram. " ++
     nl ++
     "        The budget needs to be allocated between paid ads and influencer partnerships. " ++
     nl ++
     "        I also want to consider email marketing campaigns and SEO optimization. " ++
     nl ++
     "        The target audience is millennials and Gen Z consumers. " ++
     nl ++
     "        We need to track metrics like engagement rates, conversion rates, and ROI. " ++
     nl ++
     "        The launch date is set for next quarter, so we have time to prepare. " ++
     nl ++
     "        I should also research competitor strategies and market trends. " ++
     nl ++
     "        The product features include AI integration and mobile-first design. " ++
     nl ++
     "        Customer feedback from beta testing was very positive." ++
     nl ++
     "        ")%string.

(** [FileNotFoundError], the one exception that [main] catches around
    [open]. *)
Definition is_FileNotFoundError (e : exn) : bool :=
  match e with
  | OtherException name => String.eqb name "FileNotFoundError"
  | _ => false
  end.

Section Main.

Variable E : Env.
(** [open(path, 'r', encoding='utf-8').read()] *)
Variable read_text : string -> result string.

(** The text [main] works on, or how it ends before having one. *)
Definition input_text (args : Args) : string + ending :=
  match given (arg_text args) with
  | Some text => inl text
  | None =>
      match given (arg_file args) with
      | Some path =>
          match read_text path with
          | Ok text => inl text
          | Raise e => if is_FileNotFoundError e then inr (SystemExit 1) else inr (Uncaught e)
          end
      | None => inl default_text
      end
  end.

(** [main].  What it prints is left out, and printing is taken to
    succeed. *)
Definition main (args : Args) (w : world) : ending * world :=
  match input_text args with
  | inr stop => (stop, w)
  | inl text =>
      let pipeline := MindMapPipeline_init (arg_token args) in
      match process_text E pipeline text (Some (arg_output args)) w with
      | (Ok _, w') => (Returns, w')
      | (Raise _, w') => (SystemExit 1, w')
      end
  end.

End Main.

(** [main] works on [text]: it leaves the outside as [process_text] on
    [text] does, with the pipeline built from [--token] and the output file
    of [--output]; it returns when [process_text] returns, the mind map
    being in the output file then, and exits with status 1 when
    [process_text] raises. *)
Definition main_processes (E : Env) (read_text : string -> result string)
           (args : Args) (w : world) (text : string) : Prop :=
  let run := process_text E (MindMapPipeline_init (arg_token args)) text
                          (Some (arg_output args)) w in
  snd (main E read_text args w) = snd run
  /\ match fst run with
     | Ok mindmap =>
         fst (main E read_text args w) = Returns
         /\ files (snd run) = files w ++ [(arg_output args, Some mindmap)]
     | Raise _ => fst (main E read_text args w) = SystemExit 1
     end.


(** A request to one of the four model endpoints of the pipeline, with the
    headers of the pipeline. *)
Definition from_pipeline (self : MindMapPipeline) (r : request) : Prop :=
  req_headers r = headers self
  /\ In (req_url r) [embedding_url self; classification_url self;
                     summarization_url self; ner_url self].

(** A computation all of whose requests satisfy [P]. *)
Definition sends_only {A} (P : request -> Prop) (m : M A) : Prop :=
  forall w, exists new, posts (snd (m w)) = posts w ++ new /\ Forall P new.

(** [r] is the first of the longest strings of [l]. *)
Definition first_longest (l : list string) (r : string) : Prop :=
  exists before after,
    l = before ++ r :: after
    /\ Forall (fun x => String.length x < String.length r) before
    /\ Forall (fun x => String.length x <= String.length r) after.

(* ================================================================== *)
(** ** Examples *)
(* ================================================================== *)

Unset Implicit Arguments.

Example strip_ex : PyStr.strip "  a b
 " = "a b".
Proof. reflexivity. Qed.

Example split_ex : PyStr.split "a..b." "."%char = ["a"; ""; "b"; ""].
Proof. reflexivity. Qed.

Example re_split_terminators_ex :
  PyStr.re_split PyStr.match_terminators "Hi there!? Yes. No" = ["Hi there"; " Yes"; " No"].
Proof. reflexivity. Qed.

Example re_split_separator_ex :
  PyStr.re_split PyStr.match_separator "x and and y, z;w" = ["x"; "and y"; " z"; "w"].
Proof. reflexivity. Qed.

Example slice_to_ex : PyStr.slice_to "abcdef" 2 = "ab" /\ PyStr.slice_to "abcdef" (-2) = "abcd"
                      /\ PyStr.slice_to "ab" 5 = "ab" /\ PyStr.slice_to "ab" (-5) = "".
Proof. repeat split. Qed.

Example preprocess_text_ex :
  preprocess_text "We should   focus on social media marketing, especially TikTok and Instagram. Short one!  The budget is fixed; nobody can change it?"
  = ["We should focus on social media marketing"; "especially TikTok"; "Instagram";
     "The budget is fixed"; "nobody can change it"].
Proof. reflexivity. Qed.

(** The automatic cluster count for 1, 2, 3, 5, 19, 20 and 30 points. *)
Example cluster_counts_ex :
  map (fun n => match fst (cluster_embeddings Scenario.offline (repeat PNone n) None world0) with
                | Ok (_, k) => Some k
                | Raise _ => None
                end)
      [1; 2; 3; 5; 19; 20; 30]
  = [Some 1; Some 2; Some 2; Some 2; Some 9; Some 10; Some 10]%Z.
Proof. reflexivity. Qed.

(** Without network and with an output file, [process_text] degrades step
    by step: random embeddings, positional labels, no entity, and the long
    phrase cut at 50 characters. *)
Example process_text_offline_ex :
  fst (process_text Scenario.offline (pipeline Scenario.service)
         "I need to plan my marketing strategy for the new product launch. The target audience is millennials and Gen Z consumers."
         (Some "mindmap.json") world0)
  = Ok (PDict
          [("root", PStr "Mind Map");
           ("children",
            PList
              [PDict [("node", PStr "Cluster 1");
                      ("children",
                       PList [PStr "I need to plan my marketing strategy for the new p...";
                              PStr "Gen Z consumers"])];
               PDict [("node", PStr "Cluster 2");
                      ("children", PList [PStr "The target audience is millennials"])]])]).
Proof. vm_compute. reflexivity. Qed.

(** A text without any phrase reaches KMeans with no point, and the service
    answers with the fallback document, which has no child. *)
Example empty_text_ex :
  fst (process_text Scenario.offline (pipeline Scenario.service) "..." (Some "mindmap.json")
                    world0)
  = Raise ValueError
  /\ fst (process_text_to_mindmap Scenario.offline Scenario.service "..." world0)
     = Ok (PDict [("root", PStr "Mind Map"); ("children", PList []);
                  ("generated_at", PStr "2024-01-01T00:00:00");
                  ("source_text_length", PInt 3);
                  ("ai_processed", PBool false); ("fallback_mode", PBool true)]).
Proof. split; vm_compute; reflexivity. Qed.
(* ================================================================== *)
(** ** The monad and the loops *)
(* ================================================================== *)

Lemma length_app1 {A} (l : list A) (x : A) : List.length (l ++ [x]) = S (List.length l).
Proof. rewrite length_app. simpl. lia. Qed.

(* ================================================================== *)
(** ** [get_embeddings] *)
(* ================================================================== *)

Lemma floats_of_map (f : nat -> Q) (l : list nat) :
  forallb (fun x => match x with PFloat _ => true | _ => false end)
          (map (fun j => PFloat (f j)) l) = true.
Proof. induction l as [|j l IH]; simpl; auto. Qed.

Lemma random_vector_dim E d n : vector_dim (random_vector E d n) = Some n.
Proof.
  unfold random_vector, vector_dim.
  rewrite (floats_of_map (fun j => random_rand E (d + j))).
  now rewrite length_map, length_seq.
Qed.

Lemma random_vector_synthetic E d : synthetic_384 E (random_vector E d 384).
Proof. split; [now exists d | apply random_vector_dim]. Qed.

Create HintDb pipeline.
#[local] Hint Resolve random_vector_synthetic : pipeline.

(** One turn of the loop appends exactly one entry and sends exactly one
    request, whatever the remote does. *)
Lemma get_embeddings_step_spec E self embeddings text w :
  exists v w',
    get_embeddings_step E self embeddings text w = (Ok (embeddings ++ [v]), w')
    /\ List.length (posts w') = S (List.length (posts w))
    /\ entry_for E (remote E (List.length (posts w)) (embedding_request self text)) v.
Proof.
  unfold get_embeddings_step, try_except, bind, requests_post.
  fold (embedding_request self text).
  destruct (remote E (List.length (posts w)) (embedding_request self text))
    as [e | status body] eqn:Hout.
  - (* the request raises *)
    eexists; eexists; split; [reflexivity|]. split.
    + cbn [posts]. apply length_app1.
    + split; [auto with pipeline | discriminate].
  - cbn [fst].
    destruct (Z.eqb_spec status 200) as [-> | Hstatus].
    + unfold response_json; cbn [snd].
      destruct body as [embedding|].
      * unfold ret at 1.
        destruct (Py.nonempty_list embedding) eqn:Hshape.
        -- destruct embedding as [ | | | | | [|x rest] | ]; try discriminate Hshape.
           eexists; eexists; split; [reflexivity|]. split.
           ++ cbn [posts]. apply length_app1.
           ++ split.
              ** intros Hfail. inversion Hfail; subst; try congruence; discriminate.
              ** now intros ? ? [= -> _].
        -- eexists; eexists; split; [reflexivity|]. split.
           ++ cbn [posts]. apply length_app1.
           ++ split; [auto with pipeline|].
              intros x rest [= ->]. discriminate Hshape.
      * eexists; eexists; split; [reflexivity|]. split.
        -- cbn [posts]. apply length_app1.
        -- split; [auto with pipeline | discriminate].
    + eexists; eexists; split; [reflexivity|]. split.
      * cbn [posts]. apply length_app1.
      * split; [auto with pipeline|]. intros ? ? [= ? _]. contradiction.
Qed.

(** The whole loop: one entry per phrase, in the order of the phrases, the
    [i]-th phrase being answered by the [i]-th request of the call. *)
Lemma get_embeddings_loop E self texts : forall embeddings w,
  exists vs w',
    for_each (get_embeddings_step E self) texts embeddings w = (Ok (embeddings ++ vs), w')
    /\ List.length vs = List.length texts
    /\ List.length (posts w') = List.length (posts w) + List.length texts
    /\ forall i text, nth_error texts i = Some text ->
         exists v, nth_error vs i = Some v /\
           entry_for E (remote E (List.length (posts w) + i) (embedding_request self text)) v.
Proof.
  induction texts as [|t ts IH]; intros embeddings w.
  - exists [], w. rewrite app_nil_r. repeat split; auto.
    intros [|i] text; discriminate.
  - destruct (get_embeddings_step_spec E self embeddings t w) as (v & w1 & Hstep & Hposts & Hv).
    destruct (IH (embeddings ++ [v]) w1) as (vs & w' & Hloop & Hlen & Hposts' & Hvs).
    exists (v :: vs), w'. split; [|split; [|split]].
    + cbn [for_each]. unfold bind at 1. rewrite Hstep, Hloop.
      now rewrite <- app_assoc.
    + simpl. now rewrite Hlen.
    + rewrite Hposts', Hposts. simpl. lia.
    + intros [|i] text Hnth; simpl in Hnth.
      * injection Hnth as <-. exists v. rewrite Nat.add_0_r. auto.
      * destruct (Hvs i text Hnth) as (v' & Hv' & Hentry).
        exists v'. split; [exact Hv'|].
        now replace (List.length (posts w) + S i) with (List.length (posts w1) + i) by lia.
Qed.

(** What [np.array] makes of entries that all have one shape. *)
Lemma dims_eqb_refl d : NumPy.dims_eqb d d = true.
Proof. induction d as [|x d IH]; simpl; [reflexivity |]. now rewrite Nat.eqb_refl. Qed.

Lemma shape_uniform d items :
  Forall (fun v => NumPy.shape v = Some d) items ->
  NumPy.shape (PList items)
  = Some (match items with [] => [0] | _ :: _ => List.length items :: d end).
Proof.
  intros Hall. destruct Hall as [|x rest Hx Hrest]; [reflexivity |].
  cbn [NumPy.shape map]. rewrite Hx.
  replace (forallb (NumPy.same_shape (Some d)) (map NumPy.shape rest)) with true;
    [reflexivity |].
  symmetry. induction Hrest as [|y rest Hy Hrest IH]; [reflexivity |].
  cbn [map forallb]. rewrite Hy, IH. simpl. now rewrite dims_eqb_refl.
Qed.

Lemma np_array_uniform E d entries :
  List.length d < 32 ->
  Forall (fun v => NumPy.shape v = Some d) entries ->
  np_array E entries = Ok entries.
Proof.
  intros Hd Hall. unfold np_array. rewrite (shape_uniform d entries Hall).
  assert (Hle : List.length (match entries with
                             | [] => [0]
                             | _ :: _ => List.length entries :: d
                             end) <= Nat.max 32 (NPY_MAXDIMS E))
    by (destruct entries; cbn [List.length]; lia).
  apply Nat.leb_le in Hle. now rewrite Hle.
Qed.

Lemma np_array_returns E entries vectors : np_array E entries = Ok vectors -> vectors = entries.
Proof.
  unfold np_array. destruct (NumPy.shape (PList entries)); [| discriminate].
  destruct (_ <=? _); [| discriminate]. now intros [= <-].
Qed.

Lemma shape_flat inner :
  flat inner = true ->
  NumPy.shape (PList inner)
  = Some (match inner with [] => [0] | _ :: _ => [List.length inner] end).
Proof.
  intros Hflat. apply (shape_uniform [] inner).
  unfold flat in Hflat. rewrite forallb_forall in Hflat. apply Forall_forall.
  intros x Hx. specialize (Hflat x Hx). now destruct x.
Qed.

Lemma flat_floats (f : nat -> Q) (l : list nat) : flat (map (fun j => PFloat (f j)) l) = true.
Proof.
  unfold flat. apply forallb_forall. intros x Hx.
  apply in_map_iff in Hx. destruct Hx as (j & <- & _). reflexivity.
Qed.

Lemma shape_random_vector E d : NumPy.shape (random_vector E d 384) = Some [384].
Proof.
  unfold random_vector.
  rewrite (shape_flat _ (flat_floats (fun j => random_rand E (d + j)) (seq 0 384))).
  now rewrite length_map, length_seq.
Qed.

(** C2, as the code has it.  For every list of phrases and every behaviour
    of the remote, the loop of [get_embeddings] ends with exactly one entry
    per phrase, at the index of the phrase: a vector of 384 random floats
    when the call for that phrase failed (it raised, answered a status
    other than 200, or sent a body that is not JSON, not a list, or empty),
    and the first element of the body otherwise, whatever it is.  Whenever
    [get_embeddings] returns, it returns these entries; and it returns
    whenever every call either failed or answered with a nested list
    holding a flat list of 384 elements. *)
Theorem get_embeddings_one_vector_per_phrase E self texts w :
  exists entries w',
    for_each (get_embeddings_step E self) texts [] w = (Ok entries, w')
    /\ List.length entries = List.length texts
    /\ (forall i text, nth_error texts i = Some text ->
          exists v, nth_error entries i = Some v /\
            entry_for E (remote E (List.length (posts w) + i) (embedding_request self text)) v)
    /\ (forall vectors, fst (get_embeddings E self texts w) = Ok vectors -> vectors = entries)
    /\ ((forall i text, nth_error texts i = Some text ->
           embedding_failure (remote E (List.length (posts w) + i)
                                     (embedding_request self text))
           \/ nested_384 (remote E (List.length (posts w) + i)
                                 (embedding_request self text))) ->
        get_embeddings E self texts w = (Ok entries, w')).
Proof.
  destruct (get_embeddings_loop E self texts [] w) as (vs & w' & Hloop & Hlen & _ & Hvs).
  cbn [app] in Hloop.
  assert (Hrun : get_embeddings E self texts w = (np_array E vs, w')).
  { unfold get_embeddings, bind. now rewrite Hloop. }
  exists vs, w'. repeat split; try assumption.
  - intros vectors. rewrite Hrun. cbn [fst]. apply np_array_returns.
  - intros Hmix. rewrite Hrun. f_equal.
    apply (np_array_uniform E [384]); [simpl; lia |].
    apply Forall_forall. intros v Hv.
    destruct (In_nth_error _ _ Hv) as (i & Hi).
    assert (Hlt : i < List.length texts).
    { rewrite <- Hlen. apply nth_error_Some. congruence. }
    destruct (nth_error texts i) as [text|] eqn:Htext;
      [| apply nth_error_None in Htext; lia].
    destruct (Hvs i text Htext) as (v' & Hv' & Hfail & Hfirst).
    assert (v' = v) by congruence. subst v'.
    destruct (Hmix i text Htext) as [Hf | (inner & rest & Hout & Hflat & Hinner)].
    + destruct (Hfail Hf) as ((d & ->) & _). apply shape_random_vector.
    + rewrite (Hfirst _ _ Hout), (shape_flat inner Hflat).
      destruct inner; [discriminate Hinner | now rewrite Hinner].
Qed.

(** The body [["model", "loading"]] is a non-empty list and so counts as a
    success: for each phrase its first element is kept as the entry, and no
    random vector is drawn. *)
Lemma get_embeddings_keeps_malformed_body :
  get_embeddings (Scenario.answering
                    (Response 200 (Some (PList [PStr "model"; PStr "loading"]))))
                 (pipeline Scenario.service) ["first phrase"; "second phrase"] world0
  = (Ok [PStr "model"; PStr "model"],
     {| posts := [embedding_request (pipeline Scenario.service) "first phrase";
                  embedding_request (pipeline Scenario.service) "second phrase"];
        draws := 0; fits := []; files := [] |})
  /\ vector_dim (PStr "model") = None.
Proof. split; reflexivity. Qed.




(** Two phrases, the first answered with a nested vector of two numbers and
    the second not at all: [np.array] cannot make an array of a vector of 2
    and a vector of 384, and the whole batch is lost, after both requests
    were sent. *)
Example get_embeddings_mixed_batch_ex :
  let E := Scenario.first_then
             (Response 200 (Some (PList [PList [PFloat (1 # 2); PFloat (1 # 4)]])))
             (PostRaises RequestException) in
  fst (get_embeddings E (pipeline Scenario.service) ["first phrase"; "second phrase"] world0)
  = Raise ValueError
  /\ posts (snd (get_embeddings E (pipeline Scenario.service)
                                ["first phrase"; "second phrase"] world0))
     = [embedding_request (pipeline Scenario.service) "first phrase";
        embedding_request (pipeline Scenario.service) "second phrase"].
Proof. split; vm_compute; reflexivity. Qed.

(* ================================================================== *)
(** ** [cluster_embeddings] *)
(* ================================================================== *)

(** C4. For a non-empty list of [N] embeddings and no explicit count,
    [cluster_embeddings] calls KMeans with a count [k] such that
    [1 <= k <= min(10, N)] and [k <= N], and [k] is the count it returns
    when KMeans returns. *)
Theorem cluster_count_bounds E embeddings w :
  0 < List.length embeddings ->
  let N := Z.of_nat (List.length embeddings) in
  let r := cluster_embeddings E embeddings None w in
  exists k,
    (1 <= k <= Z.min 10 N /\ k <= N)%Z
    /\ fits (snd r) = fits w ++ [(k, embeddings)]
    /\ fst r = match KMeans_fit_predict E k embeddings with
               | Ok cluster_labels => Ok (cluster_labels, k)
               | Raise e => Raise e
               end.
Proof.
  intros Hlen N r. subst r. unfold cluster_embeddings, bind, KMeans_call, ret.
  fold N.
  set (k := if (N <? _)%Z then N else _).
  exists k. split; [|split].
  - subst k. assert (1 <= N)%Z by (subst N; lia).
    destruct (Z.ltb_spec N (Z.max 2 (Z.min (Z.min 10 (Z.max 2 (N / 2))) N)));
      Z.div_mod_to_equations; lia.
  - destruct (KMeans_fit_predict E k embeddings); reflexivity.
  - destruct (KMeans_fit_predict E k embeddings); reflexivity.
Qed.

(** A run of [cluster_count_bounds]: three points, no network. *)
Lemma cluster_count_bounds_witness :
  0 < List.length [PNone; PNone; PNone]
  /\ exists k,
       (1 <= k <= Z.min 10 3 /\ k <= 3)%Z
       /\ fits (snd (cluster_embeddings Scenario.offline [PNone; PNone; PNone] None world0))
          = fits world0 ++ [(k, [PNone; PNone; PNone])]
       /\ fst (cluster_embeddings Scenario.offline [PNone; PNone; PNone] None world0)
          = match KMeans_fit_predict Scenario.offline k [PNone; PNone; PNone] with
            | Ok cluster_labels => Ok (cluster_labels, k)
            | Raise e => Raise e
            end.
Proof.
  split; [simpl; lia |].
  apply (cluster_count_bounds Scenario.offline [PNone; PNone; PNone] world0). simpl; lia.
Defined.

(** C5, as the code has it.  With no embedding and no explicit count the
    count computed is 0, and nothing sets the empty input apart: KMeans is
    called with [n_clusters = 0] on the empty data, and [cluster_embeddings]
    returns [k = 0] exactly when that call returns; when it raises, so does
    [cluster_embeddings]. *)
Theorem cluster_embeddings_empty E w :
  cluster_embeddings E [] None w
  = (match KMeans_fit_predict E 0 [] with
     | Ok cluster_labels => Ok (cluster_labels, 0%Z)
     | Raise e => Raise e
     end,
     {| posts := posts w; draws := draws w; fits := fits w ++ [(0%Z, [])];
        files := files w |}).
Proof.
  unfold cluster_embeddings, bind, KMeans_call, ret. cbn.
  destruct (KMeans_fit_predict E 0 []); reflexivity.
Qed.

(** On the empty input the clustering call is made, with zero clusters, and
    a KMeans that checks its input as scikit-learn does raises: no [k = 0]
    is returned. *)
Lemma cluster_embeddings_empty_calls_KMeans :
  cluster_embeddings Scenario.offline [] None world0
  = (Raise ValueError, {| posts := []; draws := 0; fits := [(0%Z, [])]; files := [] |}).
Proof. reflexivity. Qed.

(* ================================================================== *)
(** ** [classify_clusters] *)
(* ================================================================== *)

(** One turn of the loop returns, and sends one request, which carries the
    fixed vocabulary. *)
Lemma classify_step_spec E self classified_labels i cluster_text w :
  exists labels' w',
    classify_step E self classified_labels (i, cluster_text) w = (Ok labels', w')
    /\ posts w' = posts w ++ [classification_request self cluster_text].
Proof.
  unfold classify_step, try_except, bind, requests_post.
  fold (classification_request self cluster_text).
  destruct (remote E _ _) as [e | status body]; cbn [fst snd];
    [eexists; eexists; split; reflexivity |].
  destruct (status =? 200)%Z; [| eexists; eexists; split; reflexivity].
  unfold response_json; cbn [snd].
  destruct body as [result|]; [| eexists; eexists; split; reflexivity].
  unfold ret at 1.
  destruct (Py.nonempty_list result); [| eexists; eexists; split; reflexivity].
  unfold lift.
  destruct (max_by_score E (Py.items result)) as [best|e];
    [| eexists; eexists; split; reflexivity].
  destruct (Py.getitem best "label"); eexists; eexists; split; reflexivity.
Qed.

Lemma classify_loop_posts E self cluster_texts : forall start classified_labels w,
  posts (snd (for_each (classify_step E self)
                       (combine (seq start (List.length cluster_texts)) cluster_texts)
                       classified_labels w))
  = posts w ++ map (classification_request self) cluster_texts.
Proof.
  induction cluster_texts as [|t ts IH]; intros start classified_labels w.
  - simpl. now rewrite app_nil_r.
  - cbn [List.length seq combine for_each map]. unfold bind at 1.
    destruct (classify_step_spec E self classified_labels start t w)
      as (labels' & w' & -> & Hposts).
    rewrite IH, Hposts. now rewrite <- app_assoc.
Qed.

(** C10. The argument [cluster_labels] of [classify_clusters] has no effect:
    for the same texts and the same outside, any two values of it give the
    same labels and the same requests.  One request is sent per text, and
    the candidate labels it carries are always the fifteen of the built-in
    vocabulary. *)
Theorem classify_clusters_ignores_cluster_labels E self cluster_texts labels1 labels2 w :
  classify_clusters E self cluster_texts labels1 w
  = classify_clusters E self cluster_texts labels2 w
  /\ posts (snd (classify_clusters E self cluster_texts labels1 w))
     = posts w ++ map (classification_request self) cluster_texts
  /\ (forall cluster_text,
        req_json (classification_request self cluster_text)
        = PDict [("inputs", PStr cluster_text);
                 ("parameters",
                  PDict [("candidate_labels",
                          PList (map PStr
                                   ["Business"; "Technology"; "Marketing"; "Finance";
                                    "Education"; "Health"; "Entertainment"; "Travel";
                                    "Food"; "Sports"; "Science"; "Art"; "Music";
                                    "Politics"; "Environment"]))])])
  /\ List.length candidate_labels = 15.
Proof.
  split; [reflexivity |]. split; [| split; [reflexivity | reflexivity]].
  unfold classify_clusters, Py.enumerate. apply classify_loop_posts.
Qed.

(* ================================================================== *)
(** ** [summarize_text] *)
(* ================================================================== *)

(** C8. For a string longer than [max_length], when the summarization call
    fails (the request raises, the status is not 200, or the body is not
    JSON, not a list, empty, or without a summary), [summarize_text] returns
    [text[:max_length] + "..."]. *)
Theorem summarize_text_truncates E self text max_length w :
  (max_length < Z.of_nat (String.length text))%Z ->
  summarization_failure
    (remote E (List.length (posts w)) (summarization_request self (PStr text) max_length)) ->
  fst (summarize_text E self (PStr text) max_length w)
  = Ok (PStr (PyStr.slice_to text max_length ++ "...")).
Proof.
  intros Hlong Hfail.
  unfold summarize_text. cbn [Py.len]. unfold bind at 1, lift at 1.
  destruct (Z.leb_spec (Z.of_nat (String.length text)) max_length) as [Hle | _]; [lia |].
  unfold try_except, bind, requests_post.
  fold (summarization_request self (PStr text) max_length).
  inversion Hfail as [e He | s b Hs He | He | v Hv He | He | x rest e Hx He];
    cbn [fst snd]; try reflexivity.
  - destruct (Z.eqb_spec s 200); [contradiction | reflexivity].
  - destruct v; try discriminate Hv; reflexivity.
  - cbn. unfold lift. now rewrite Hx.
Qed.

(** A run of [summarize_text_truncates]: a string of 100 characters, a
    bound of 50, and no network. *)
Lemma summarize_text_truncates_witness :
  String.length Scenario.hundred = 100
  /\ fst (summarize_text Scenario.offline (pipeline Scenario.service)
                         (PStr Scenario.hundred) 50 world0)
     = Ok (PStr (PyStr.slice_to Scenario.hundred 50 ++ "...")).
Proof.
  split; [reflexivity |].
  apply (summarize_text_truncates Scenario.offline (pipeline Scenario.service)
                                  Scenario.hundred 50 world0).
  - reflexivity.
  - exact (SF_raises RequestException).
Defined.

(* ================================================================== *)
(** ** Insertion-ordered dictionaries *)
(* ================================================================== *)

Section ODictFacts.
Context {K V : Type} (eqb : K -> K -> bool).
Hypothesis eqb_refl : forall k, eqb k k = true.
Hypothesis eqb_sym : forall a b, eqb a b = eqb b a.
Hypothesis eqb_trans : forall a b c, eqb a b = true -> eqb b c = true -> eqb a c = true.


Lemma mem_keys (k : K) (d : list (K * V)) :
  ODict.mem eqb k d = key_in eqb k (ODict.keys d).
Proof.
  unfold ODict.mem, key_in. induction d as [|[k' v] d IH]; simpl; auto.
  destruct (eqb k k'); simpl; auto.
Qed.

Lemma keys_set (k : K) (v : V) (d : list (K * V)) :
  ODict.keys (ODict.set eqb k v d)
  = if ODict.mem eqb k d then ODict.keys d else ODict.keys d ++ [k].
Proof.
  unfold ODict.mem. induction d as [|[k' v'] d IH]; simpl; auto.
  destruct (eqb k k') eqn:Hk; simpl; auto.
  rewrite IH. now destruct (ODict.get eqb k d).
Qed.

Lemma get_set_same (k : K) (v : V) (d : list (K * V)) :
  ODict.get eqb k (ODict.set eqb k v d) = Some v.
Proof.
  induction d as [|[k' v'] d IH]; simpl.
  - now rewrite eqb_refl.
  - destruct (eqb k k') eqn:Hk; simpl; now rewrite Hk.
Qed.

Lemma key_in_app (k : K) (ks ks' : list K) : key_in eqb k (ks ++ ks') = key_in eqb k ks || key_in eqb k ks'.
Proof. apply existsb_app. Qed.

Lemma key_in_eqb (a b : K) (ks : list K) : eqb a b = true -> key_in eqb a ks = key_in eqb b ks.
Proof.
  intros Hab. unfold key_in. induction ks as [|k ks IH]; simpl; auto.
  rewrite IH. f_equal.
  destruct (eqb a k) eqn:Ha, (eqb b k) eqn:Hb; auto.
  - rewrite (eqb_sym a b) in Hab. now rewrite (eqb_trans _ _ _ Hab Ha) in Hb.
  - now rewrite (eqb_trans _ _ _ Hab Hb) in Ha.
Qed.

Lemma filter_known (c : K) (ks l : list K) :
  key_in eqb c ks = true ->
  filter (fun y => negb (key_in eqb y ks)) (filter (fun y => negb (eqb c y)) l)
  = filter (fun y => negb (key_in eqb y ks)) l.
Proof.
  intros Hc. induction l as [|y l IH]; simpl; auto.
  destruct (eqb c y) eqn:Hy; simpl.
  - rewrite <- (key_in_eqb c y ks Hy), Hc. simpl. exact IH.
  - now rewrite IH.
Qed.

Lemma filter_new (c : K) (ks l : list K) :
  filter (fun y => negb (key_in eqb y (ks ++ [c]))) l
  = filter (fun y => negb (key_in eqb y ks)) (filter (fun y => negb (eqb c y)) l).
Proof.
  induction l as [|y l IH]; simpl; auto.
  rewrite key_in_app, IH. simpl. rewrite orb_false_r, (eqb_sym y c).
  destruct (key_in eqb y ks) eqn:Hy, (eqb c y); simpl; rewrite ?Hy; auto.
Qed.

(** The keys a dictionary ends with, when the keys [l] are added in turn
    to a dictionary whose keys are [ks]. *)
Lemma first_occurrences_extend (l ks : list K) :
  fold_left (add_key eqb) l ks
  = ks ++ filter (fun y => negb (key_in eqb y ks)) (first_occurrences eqb l).
Proof.
  revert ks. induction l as [|c l IH]; intros ks.
  - simpl. now rewrite app_nil_r.
  - cbn [fold_left first_occurrences filter]. rewrite IH. unfold add_key at 1 2.
    destruct (key_in eqb c ks) eqn:Hc; cbn [negb].
    + now rewrite filter_known.
    + rewrite <- app_assoc, filter_new. reflexivity.
Qed.

Lemma first_occurrences_fold (l : list K) :
  fold_left (add_key eqb) l [] = first_occurrences eqb l.
Proof.
  rewrite first_occurrences_extend. simpl.
  induction (first_occurrences eqb l) as [|y ys IH]; simpl; congruence.
Qed.
End ODictFacts.

Lemma key_eq_refl k : Py.key_eq k k = true.
Proof.
  destruct k as [ | b | z | q | s]; unfold Py.key_eq; simpl;
    try apply Qeq_bool_refl; auto using String.eqb_refl.
Qed.

Lemma key_eq_sym a b : Py.key_eq a b = Py.key_eq b a.
Proof.
  destruct a, b; unfold Py.key_eq; simpl; auto using Qeq_bool_comm, String.eqb_sym.
Qed.

Lemma key_eq_trans a b c :
  Py.key_eq a b = true -> Py.key_eq b c = true -> Py.key_eq a c = true.
Proof.
  destruct a, b, c; unfold Py.key_eq; simpl; try discriminate; auto;
    try (intros H1 H2; apply Qeq_bool_iff;
         apply Qeq_bool_iff in H1; apply Qeq_bool_iff in H2;
         now rewrite H1, H2).
  intros H1 H2. apply String.eqb_eq in H1, H2. subst. apply String.eqb_refl.
Qed.

(* ================================================================== *)
(** ** [merge_results] *)
(* ================================================================== *)

Lemma keys_group_step clusters text cluster_id :
  ODict.keys (group_step clusters (text, cluster_id))
  = add_key Z.eqb (ODict.keys clusters) cluster_id.
Proof.
  unfold group_step, add_key. rewrite <- (mem_keys Z.eqb).
  destruct (ODict.mem Z.eqb cluster_id clusters) eqn:Hmem.
  - unfold ODict.mem in Hmem.
    destruct (ODict.get Z.eqb cluster_id clusters) eqn:Hget; [| discriminate].
    rewrite keys_set. unfold ODict.mem. now rewrite Hget.
  - rewrite (get_set_same Z.eqb Z.eqb_refl).
    rewrite !keys_set. unfold ODict.mem at 1.
    rewrite (get_set_same Z.eqb Z.eqb_refl). now rewrite Hmem.
Qed.

Lemma keys_group_loop l : forall clusters,
  ODict.keys (fold_left group_step l clusters)
  = fold_left (add_key Z.eqb) (map snd l) (ODict.keys clusters).
Proof.
  induction l as [|[text cluster_id] l IH]; intros clusters; cbn [fold_left map snd]; auto.
  now rewrite IH, keys_group_step.
Qed.

(** The clusters are kept in the order in which their ids first occur in
    the assignment. *)
Lemma group_texts_keys texts cluster_labels :
  ODict.keys (group_texts texts cluster_labels)
  = first_occurrences Z.eqb (map snd (combine texts cluster_labels)).
Proof.
  unfold group_texts. rewrite keys_group_loop. simpl.
  apply first_occurrences_fold; [apply Z.eqb_sym |].
  intros a b c Hab Hbc. apply Z.eqb_eq in Hab, Hbc. subst. apply Z.eqb_refl.
Qed.

Lemma keys_entity_step entity_clusters entity entity_clusters' :
  entity_step entity_clusters entity = Ok entity_clusters' ->
  exists k, label_of entity = Ok k
            /\ ODict.keys entity_clusters' = add_key Py.key_eq (ODict.keys entity_clusters) k.
Proof.
  unfold entity_step, label_of, rbind.
  destruct (Py.getitem entity "label") as [label|]; [| discriminate].
  destruct (Py.to_key label) as [k|]; [| discriminate].
  intros Hstep. exists k. split; [reflexivity |].
  unfold add_key. rewrite <- (mem_keys Py.key_eq).
  destruct (ODict.mem Py.key_eq k entity_clusters) eqn:Hmem.
  - unfold ODict.mem in Hmem.
    destruct (ODict.get Py.key_eq k entity_clusters) eqn:Hget; [| discriminate].
    destruct (Py.getitem entity "text"); [| discriminate].
    injection Hstep as <-. rewrite keys_set. unfold ODict.mem. now rewrite Hget.
  - rewrite (get_set_same Py.key_eq key_eq_refl) in Hstep.
    destruct (Py.getitem entity "text"); [| discriminate].
    injection Hstep as <-. rewrite !keys_set. unfold ODict.mem at 1.
    rewrite (get_set_same Py.key_eq key_eq_refl). now rewrite Hmem.
Qed.

Lemma keys_entity_loop entities : forall entity_clusters entity_clusters',
  for_each_r entity_step entities entity_clusters = Ok entity_clusters' ->
  exists ks, Forall2 (fun entity k => label_of entity = Ok k) entities ks
             /\ ODict.keys entity_clusters'
                = fold_left (add_key Py.key_eq) ks (ODict.keys entity_clusters).
Proof.
  induction entities as [|entity entities IH]; intros d d' Hloop; simpl in Hloop.
  - injection Hloop as <-. exists []. split; [constructor | reflexivity].
  - destruct (entity_step d entity) as [d1|] eqn:Hstep; [| discriminate].
    destruct (keys_entity_step _ _ _ Hstep) as (k & Hk & Hkeys).
    destruct (IH _ _ Hloop) as (ks & Hks & Hkeys').
    exists (k :: ks). split; [now constructor |].
    simpl. now rewrite Hkeys', Hkeys.
Qed.

(** The categories are kept in the order in which they are first met. *)
Lemma group_entities_keys entities entity_clusters :
  group_entities entities = Ok entity_clusters ->
  exists ks, Forall2 (fun entity k => label_of entity = Ok k) entities ks
             /\ ODict.keys entity_clusters = first_occurrences Py.key_eq ks.
Proof.
  intros Hgroup. destruct (keys_entity_loop _ _ _ Hgroup) as (ks & Hks & Hkeys).
  exists ks. split; [exact Hks |]. rewrite Hkeys. simpl.
  apply first_occurrences_fold; [apply key_eq_sym | apply key_eq_trans].
Qed.

(** The loop over the clusters appends, in the order of the dictionary, one
    child for every cluster that has a label. *)
Lemma cluster_loop E self classified_labels clusters : forall children w children' w',
  for_each (cluster_node_step E self classified_labels) clusters children w = (Ok children', w') ->
  exists nodes,
    children' = children ++ nodes
    /\ Forall2 (built_from E self classified_labels)
               (labelled_clusters classified_labels clusters) nodes.
Proof.
  induction clusters as [|item clusters IH]; intros children w children' w' Hloop.
  - injection Hloop as <- _. exists []. split; [now rewrite app_nil_r | constructor].
  - cbn [for_each] in Hloop. unfold bind at 1 in Hloop.
    unfold cluster_node_step at 1 in Hloop. unfold labelled_clusters. cbn [filter].
    destruct (fst item <? Z.of_nat (List.length classified_labels))%Z.
    + unfold bind at 1 in Hloop.
      destruct (cluster_node E self classified_labels item w) as [[node | e] w1] eqn:Hnode;
        [| discriminate].
      unfold ret at 1 in Hloop.
      destruct (IH _ _ _ _ Hloop) as (nodes & -> & Hnodes).
      exists (node :: nodes). split; [now rewrite <- app_assoc |].
      constructor; [now exists w, w1 | exact Hnodes].
    + unfold ret at 1 in Hloop. exact (IH _ _ _ _ Hloop).
Qed.

Lemma entity_nodes_appended E entity_clusters : forall children,
  fold_left (fun children item => children ++ [entity_node E item]) entity_clusters children
  = children ++ map (entity_node E) entity_clusters.
Proof.
  induction entity_clusters as [|item l IH]; intros children; simpl.
  - now rewrite app_nil_r.
  - now rewrite IH, <- app_assoc.
Qed.

(** C6, as the code has it.  In the document [merge_results] returns, the
    children are the cluster nodes followed by the entity nodes.  The
    cluster nodes stand in the order in which the cluster ids first occur
    in the assignment (the order of the dictionary [clusters]), one for
    every cluster whose id is below the number of labels; the entity nodes
    stand in the order in which the categories are first met in the entity
    list. *)
Theorem merge_results_order E self texts cluster_labels classified_labels entities w doc w' :
  merge_results E self texts cluster_labels classified_labels entities w = (Ok doc, w') ->
  exists cluster_nodes entity_clusters categories,
    doc = PDict [("root", PStr "Mind Map");
                 ("children", PList (cluster_nodes ++ map (entity_node E) entity_clusters))]
    /\ Forall2 (built_from E self classified_labels)
               (labelled_clusters classified_labels (group_texts texts cluster_labels))
               cluster_nodes
    /\ ODict.keys (group_texts texts cluster_labels)
       = first_occurrences Z.eqb (map snd (combine texts cluster_labels))
    /\ Forall2 (fun entity k => label_of entity = Ok k) entities categories
    /\ ODict.keys entity_clusters = first_occurrences Py.key_eq categories.
Proof.
  unfold merge_results. unfold bind at 1. intros Hrun.
  destruct (for_each (cluster_node_step E self classified_labels)
                     (group_texts texts cluster_labels) [] w) as [[children | e] w1] eqn:Hloop;
    [| discriminate].
  destruct (cluster_loop _ _ _ _ _ _ _ _ Hloop) as (nodes & -> & Hnodes). simpl in Hrun.
  destruct entities as [|entity entities].
  - injection Hrun as <- _. exists nodes, [], [].
    simpl. rewrite app_nil_r.
    repeat split; auto using group_texts_keys.
  - unfold bind at 1 2, lift, ret in Hrun.
    destruct (group_entities (entity :: entities)) as [entity_clusters | e] eqn:Hgroup;
      [| discriminate].
    injection Hrun as <- _.
    destruct (group_entities_keys _ _ Hgroup) as (ks & Hks & Hkeys).
    exists nodes, entity_clusters, ks. rewrite entity_nodes_appended.
    repeat split; auto using group_texts_keys.
Qed.

(** With the assignment [[1, 0]] the node of cluster 1 comes before the
    node of cluster 0: the cluster nodes are not in ascending order of
    cluster id. *)
Lemma merge_results_follows_first_occurrence :
  fst (merge_results Scenario.offline (pipeline Scenario.service)
                     ["first phrase"; "second phrase"] [1%Z; 0%Z]
                     [PStr "Label of 0"; PStr "Label of 1"] [] world0)
  = Ok (PDict [("root", PStr "Mind Map");
               ("children",
                PList [PDict [("node", PStr "Label of 1");
                              ("children", PList [PStr "first phrase"])];
                       PDict [("node", PStr "Label of 0");
                              ("children", PList [PStr "second phrase"])]])]).
Proof. reflexivity. Qed.

(** A run of [merge_results_order], with three entities of two
    categories. *)
Lemma merge_results_order_witness :
  exists doc,
    merge_results Scenario.offline (pipeline Scenario.service)
                  ["first phrase"; "second phrase"] [1%Z; 0%Z]
                  [PStr "Label of 0"; PStr "Label of 1"] two_entities world0
    = (Ok doc, world0)
    /\ exists cluster_nodes entity_clusters categories,
         doc = PDict [("root", PStr "Mind Map");
                      ("children",
                       PList (cluster_nodes
                                ++ map (entity_node Scenario.offline) entity_clusters))]
         /\ Forall2 (built_from Scenario.offline (pipeline Scenario.service)
                                [PStr "Label of 0"; PStr "Label of 1"])
                    (labelled_clusters
                       [PStr "Label of 0"; PStr "Label of 1"]
                       (group_texts ["first phrase"; "second phrase"] [1%Z; 0%Z]))
                    cluster_nodes
         /\ ODict.keys (group_texts ["first phrase"; "second phrase"] [1%Z; 0%Z])
            = first_occurrences Z.eqb
                (map snd (combine ["first phrase"; "second phrase"] [1%Z; 0%Z]))
         /\ Forall2 (fun entity k => label_of entity = Ok k) two_entities categories
         /\ ODict.keys entity_clusters = first_occurrences Py.key_eq categories.
Proof.
  eexists. split; [reflexivity |].
  apply (merge_results_order Scenario.offline (pipeline Scenario.service)
                             ["first phrase"; "second phrase"] [1%Z; 0%Z]
                             [PStr "Label of 0"; PStr "Label of 1"] two_entities
                             world0 _ world0).
  reflexivity.
Defined.

(* ================================================================== *)
(** ** [_create_fallback_mindmap] *)
(* ================================================================== *)

Lemma strings_are_str (l : list string) : forallb is_str (map PStr l) = true.
Proof. induction l; simpl; auto. Qed.

Lemma fallback_step_nodes sentences chunk_size clusters i :
  forallb is_node clusters = true ->
  forallb is_node (fallback_step sentences chunk_size clusters i) = true.
Proof.
  intros Hnodes. unfold fallback_step.
  destruct (Py.slice sentences i (i + chunk_size)) as [|s chunk]; [exact Hnodes |].
  rewrite forallb_app, Hnodes. cbn [forallb andb].
  unfold is_node. cbn [Py.getitem ODict.get String.eqb Ascii.eqb Bool.eqb].
  now rewrite strings_are_str.
Qed.

Lemma fallback_clusters_nodes sentences : forallb is_node (fallback_clusters sentences) = true.
Proof.
  unfold fallback_clusters.
  generalize (Py.range_step (List.length sentences) (Nat.max 1 (List.length sentences / 3))).
  intros l. assert (H : forallb is_node [] = true) by reflexivity.
  revert H. generalize (@nil pyval).
  induction l as [|i l IH]; intros clusters H; simpl; auto using fallback_step_nodes.
Qed.

(** The fallback document is a MindMapDocument, marked as not processed by
    the AI. *)
Lemma fallback_is_document E text :
  is_mindmap_document (_create_fallback_mindmap E text) = true
  /\ Py.getitem (_create_fallback_mindmap E text) "ai_processed" = Ok (PBool false)
  /\ Py.getitem (_create_fallback_mindmap E text) "fallback_mode" = Ok (PBool true).
Proof.
  split; [| split; reflexivity].
  unfold is_mindmap_document, _create_fallback_mindmap.
  cbn [Py.getitem ODict.get String.eqb Ascii.eqb Bool.eqb].
  now rewrite fallback_clusters_nodes.
Qed.

(** Every chunk start below [len(sentences)] opens a non-empty chunk, so the
    loop makes [ceil(len(sentences) / chunk_size)] topics. *)
Lemma fallback_step_grows sentences chunk_size clusters i :
  0 < chunk_size -> i < List.length sentences ->
  List.length (fallback_step sentences chunk_size clusters i) = S (List.length clusters).
Proof.
  intros Hcs Hi. unfold fallback_step, Py.slice.
  replace (i + chunk_size - i) with chunk_size by lia.
  destruct (skipn i sentences) as [|s rest] eqn:Hskip.
  - apply (f_equal (@List.length string)) in Hskip.
    rewrite length_skipn in Hskip. simpl in Hskip. lia.
  - destruct chunk_size as [|c]; [lia |]. cbn [firstn]. apply length_app1.
Qed.

Lemma fallback_loop_length sentences chunk_size l : forall clusters,
  0 < chunk_size -> Forall (fun i => i < List.length sentences) l ->
  List.length (fold_left (fallback_step sentences chunk_size) l clusters)
  = List.length clusters + List.length l.
Proof.
  induction l as [|i l IH]; intros clusters Hcs Hl; simpl; [lia |].
  inversion Hl; subst. rewrite IH by assumption.
  rewrite fallback_step_grows by assumption. lia.
Qed.

Lemma fallback_topic_count sentences :
  let n := List.length sentences in
  let chunk_size := Nat.max 1 (n / 3) in
  List.length (fallback_clusters sentences) = (n + chunk_size - 1) / chunk_size.
Proof.
  intros n chunk_size. unfold fallback_clusters. fold n. fold chunk_size.
  assert (Hcs : 0 < chunk_size) by (unfold chunk_size; lia).
  rewrite fallback_loop_length; [| exact Hcs |].
  - unfold Py.range_step. now rewrite length_map, length_seq.
  - unfold Py.range_step. apply Forall_forall. intros i Hi.
    apply in_map_iff in Hi. destruct Hi as (j & <- & Hj). apply in_seq in Hj.
    fold n.
    assert (Hdiv : chunk_size * ((n + chunk_size - 1) / chunk_size) <= n + chunk_size - 1)
      by (apply Nat.Div0.mul_div_le).
    nia.
Qed.

(** C7, where the code leaves it.  Four sentences give a chunk size of
    [max(1, 4 // 3) = 1], so the loop makes four chunks and the document has
    four topics, not three. *)
Theorem fallback_four_sentences_four_topics :
  fallback_sentences "One. Two. Three. Four." = ["One"; "Two"; "Three"; "Four"]
  /\ _create_fallback_mindmap Scenario.offline "One. Two. Three. Four."
     = PDict [("root", PStr "Mind Map");
              ("children",
               PList [PDict [("node", PStr "Topic 1"); ("children", PList [PStr "One"])];
                      PDict [("node", PStr "Topic 2"); ("children", PList [PStr "Two"])];
                      PDict [("node", PStr "Topic 3"); ("children", PList [PStr "Three"])];
                      PDict [("node", PStr "Topic 4"); ("children", PList [PStr "Four"])]]);
              ("generated_at", PStr "2024-01-01T00:00:00");
              ("source_text_length", PInt 22);
              ("ai_processed", PBool false);
              ("fallback_mode", PBool true)].
Proof. split; reflexivity. Qed.

(* ================================================================== *)
(** ** [process_text] and [process_text_to_mindmap] *)
(* ================================================================== *)

Lemma bind_raises {A B} (m : M A) (k : A -> M B) (w : world) :
  (forall a w1, exists e w', k a w1 = (Raise e, w')) ->
  exists e w', bind m k w = (Raise e, w').
Proof.
  intros Hk. unfold bind. destruct (m w) as [[a | e] w1]; [apply Hk | eauto].
Qed.

(** [open] refuses the path [None]. *)
Lemma save_None E mindmap w : save E None mindmap w = (Raise TypeError, w).
Proof. reflexivity. Qed.

(** Called without an output file, [process_text] raises: if no earlier
    step does, the attempt to open the file does. *)
Lemma process_text_None_raises E self text w :
  exists e w', process_text E self text None w = (Raise e, w').
Proof.
  unfold process_text.
  apply bind_raises; intros embeddings w1.
  apply bind_raises; intros [cluster_labels n_clusters] w2.
  apply bind_raises; intros cluster_representatives w3.
  apply bind_raises; intros classified_labels w4.
  apply bind_raises; intros entities w5.
  apply bind_raises; intros mindmap w6.
  unfold bind. rewrite save_None. eauto.
Qed.

Lemma process_text_to_mindmap_falls_back E self text w :
  exists w', process_text_to_mindmap E self text w
             = (Ok (_create_fallback_mindmap E text), w').
Proof.
  unfold process_text_to_mindmap, try_except. unfold bind at 1.
  destruct (process_text_None_raises E (pipeline self) text w) as (e & w' & ->).
  exists w'. reflexivity.
Qed.

(** C1. For every text and every behaviour of the outside,
    [process_text_to_mindmap] returns a MindMapDocument and does not raise;
    when [process_text] raises, the document is the local fallback, marked
    [ai_processed = False]. *)
Theorem process_text_to_mindmap_never_raises E self text w :
  exists doc w',
    process_text_to_mindmap E self text w = (Ok doc, w')
    /\ is_mindmap_document doc = true
    /\ (forall e w1,
          process_text E (pipeline self) text None w = (Raise e, w1) ->
          doc = _create_fallback_mindmap E text
          /\ Py.getitem doc "ai_processed" = Ok (PBool false)).
Proof.
  destruct (process_text_to_mindmap_falls_back E self text w) as (w' & Hrun).
  exists (_create_fallback_mindmap E text), w'.
  split; [exact Hrun |]. split; [apply fallback_is_document |].
  intros _ _ _. split; [reflexivity | apply fallback_is_document].
Qed.

(** C3. For every text, [process_text], called by the service with
    [output_file=None], raises, because [open] refuses [None] if nothing
    raised before; so [process_text_to_mindmap] always returns the fallback
    document, with [ai_processed = False] and [fallback_mode = True]. *)
Theorem process_text_to_mindmap_always_falls_back E self text w :
  (exists e w1, process_text E (pipeline self) text None w = (Raise e, w1))
  /\ (forall mindmap w1, save E None mindmap w1 = (Raise TypeError, w1))
  /\ fst (process_text_to_mindmap E self text w) = Ok (_create_fallback_mindmap E text)
  /\ Py.getitem (_create_fallback_mindmap E text) "ai_processed" = Ok (PBool false)
  /\ Py.getitem (_create_fallback_mindmap E text) "fallback_mode" = Ok (PBool true).
Proof.
  split; [apply process_text_None_raises |].
  split; [intros; apply save_None |].
  split; [| split; apply fallback_is_document].
  destruct (process_text_to_mindmap_falls_back E self text w) as (w' & ->). reflexivity.
Qed.


(* ================================================================== *)
(** ** Strings: stripping and splitting *)
(* ================================================================== *)

Lemma all_chars_rev_onto P s : forall acc,
  all_chars P (PyStr.rev_onto s acc) = all_chars P s && all_chars P acc.
Proof.
  induction s as [|c s IH]; intros acc; simpl; auto.
  rewrite IH. simpl. now destruct (P c), (all_chars P s), (all_chars P acc).
Qed.

Lemma all_chars_rev P s : all_chars P (PyStr.rev s) = all_chars P s.
Proof. unfold PyStr.rev. rewrite all_chars_rev_onto. simpl. apply andb_true_r. Qed.

Lemma all_chars_lstrip P s : all_chars P s = true -> all_chars P (PyStr.lstrip s) = true.
Proof.
  induction s as [|c s IH]; simpl; auto.
  intros H. apply andb_prop in H. destruct H as [Hc Hs].
  destruct (PyStr.isspace c); [auto | simpl; now rewrite Hc, Hs].
Qed.

Lemma all_chars_strip P s : all_chars P s = true -> all_chars P (PyStr.strip s) = true.
Proof.
  intros H. unfold PyStr.strip, PyStr.rstrip.
  rewrite all_chars_rev. apply all_chars_lstrip. rewrite all_chars_rev.
  now apply all_chars_lstrip.
Qed.

Lemma str_length_rev_onto s : forall acc,
  String.length (PyStr.rev_onto s acc) = String.length s + String.length acc.
Proof. induction s as [|c s IH]; intros acc; simpl; auto. rewrite IH. simpl. lia. Qed.

Lemma str_length_rev s : String.length (PyStr.rev s) = String.length s.
Proof. unfold PyStr.rev. rewrite str_length_rev_onto. simpl. lia. Qed.

Lemma length_lstrip s : String.length (PyStr.lstrip s) <= String.length s.
Proof. induction s as [|c s IH]; simpl; auto. destruct (PyStr.isspace c); simpl; lia. Qed.

Lemma length_strip s : String.length (PyStr.strip s) <= String.length s.
Proof.
  unfold PyStr.strip, PyStr.rstrip. rewrite str_length_rev.
  etransitivity; [apply length_lstrip |]. rewrite str_length_rev. apply length_lstrip.
Qed.

Lemma str_rev_onto_involutive s : forall acc,
  PyStr.rev_onto (PyStr.rev_onto s acc) EmptyString
  = PyStr.rev_onto acc s.
Proof.
  induction s as [|c s IH]; intros acc; simpl.
  - reflexivity.
  - rewrite IH. reflexivity.
Qed.

Lemma str_rev_involutive s : PyStr.rev (PyStr.rev s) = s.
Proof. unfold PyStr.rev. now rewrite str_rev_onto_involutive. Qed.

Lemma str_append_assoc (a b c : string) : ((a ++ b) ++ c = a ++ (b ++ c))%string.
Proof. induction a as [|x a IH]; simpl; congruence. Qed.

Lemma str_append_nil_r (a : string) : (a ++ "" = a)%string.
Proof. induction a as [|x a IH]; simpl; congruence. Qed.

Lemma str_rev_onto_append s : forall acc, PyStr.rev_onto s acc = (PyStr.rev s ++ acc)%string.
Proof.
  unfold PyStr.rev. induction s as [|c s IH]; intros acc; simpl; auto.
  rewrite IH, (IH (String c EmptyString)).
  now rewrite str_append_assoc.
Qed.

Lemma str_rev_append a b : PyStr.rev (a ++ b) = (PyStr.rev b ++ PyStr.rev a)%string.
Proof.
  induction a as [|c a IH]; simpl.
  - now rewrite str_append_nil_r.
  - unfold PyStr.rev at 1 3. simpl. rewrite !str_rev_onto_append, IH.
    now rewrite str_append_assoc.
Qed.

(** [lstrip] and [rstrip] only remove white space at one end. *)
Lemma lstrip_suffix s :
  exists sp, s = (sp ++ PyStr.lstrip s)%string /\ all_chars PyStr.isspace sp = true.
Proof.
  induction s as [|c s (sp & Hs & Hsp)]; simpl.
  - now exists EmptyString.
  - destruct (PyStr.isspace c) eqn:Hc.
    + exists (String c sp). simpl. rewrite Hc, Hsp. split; [congruence | reflexivity].
    + now exists EmptyString.
Qed.

Lemma rstrip_prefix s :
  exists sp, s = (PyStr.rstrip s ++ sp)%string /\ all_chars PyStr.isspace sp = true.
Proof.
  unfold PyStr.rstrip.
  destruct (lstrip_suffix (PyStr.rev s)) as (sp & Hs & Hsp).
  exists (PyStr.rev sp). split; [| now rewrite all_chars_rev].
  rewrite <- str_rev_append, <- Hs. now rewrite str_rev_involutive.
Qed.

Lemma lstrip_clean s : starts_clean (PyStr.lstrip s) = true.
Proof. induction s as [|c s IH]; simpl; auto. destruct (PyStr.isspace c) eqn:Hc; simpl; auto. now rewrite Hc. Qed.

Lemma lstrip_fixed s : starts_clean s = true -> PyStr.lstrip s = s.
Proof. destruct s as [|c s]; simpl; auto. now destruct (PyStr.isspace c). Qed.

Lemma rstrip_clean s : starts_clean s = true -> starts_clean (PyStr.rstrip s) = true.
Proof.
  intros H. destruct (rstrip_prefix s) as (sp & Hs & _).
  destruct (PyStr.rstrip s) as [|c r]; [reflexivity |].
  rewrite Hs in H. exact H.
Qed.

Lemma rstrip_idempotent s : PyStr.rstrip (PyStr.rstrip s) = PyStr.rstrip s.
Proof.
  unfold PyStr.rstrip. rewrite str_rev_involutive.
  now rewrite (lstrip_fixed _ (lstrip_clean _)).
Qed.

(** Stripping a stripped string changes nothing. *)
Lemma strip_idempotent s : PyStr.strip (PyStr.strip s) = PyStr.strip s.
Proof.
  unfold PyStr.strip.
  rewrite (lstrip_fixed (PyStr.rstrip (PyStr.lstrip s))).
  - apply rstrip_idempotent.
  - apply rstrip_clean, lstrip_clean.
Qed.


Lemma all_chars_and P Q s :
  all_chars (fun c => P c && Q c) s = all_chars P s && all_chars Q s.
Proof.
  induction s as [|c s IH]; simpl; auto. rewrite IH.
  now destruct (P c), (Q c), (all_chars P s), (all_chars Q s).
Qed.

(** The pieces of a split are made of characters of the string that was
    split. *)
Lemma re_split_go_chars P match_at s : forall cur skip,
  all_chars P s = true -> all_chars P cur = true ->
  Forall (fun piece => all_chars P piece = true) (PyStr.re_split_go match_at s cur skip).
Proof.
  induction s as [|c s IH]; intros cur skip Hs Hcur; simpl.
  - constructor; [now rewrite all_chars_rev | constructor].
  - simpl in Hs. apply andb_prop in Hs. destruct Hs as [Hc Hs].
    destruct skip as [|k]; [| now apply IH].
    destruct (match_at (String c s)) as [[|k]|].
    + apply IH; simpl; auto. now rewrite Hc.
    + constructor; [now rewrite all_chars_rev | now apply IH].
    + apply IH; simpl; auto. now rewrite Hc.
Qed.

(** No piece holds a character at which the pattern always matches. *)
Lemma re_split_go_free (bad : ascii -> bool) match_at :
  (forall c s, bad c = true -> exists k, match_at (String c s) = Some (S k)) ->
  forall s cur skip,
    all_chars (fun c => negb (bad c)) cur = true ->
    Forall (fun piece => all_chars (fun c => negb (bad c)) piece = true)
           (PyStr.re_split_go match_at s cur skip).
Proof.
  intros Hbad. induction s as [|c s IH]; intros cur skip Hcur; simpl.
  - constructor; [now rewrite all_chars_rev | constructor].
  - destruct skip as [|k]; [| now apply IH].
    destruct (match_at (String c s)) as [[|k]|] eqn:Hm.
    + apply IH. simpl. rewrite Hcur, andb_true_r.
      destruct (bad c) eqn:Hc; [| reflexivity].
      destruct (Hbad c s Hc) as (k & Hk). congruence.
    + constructor; [now rewrite all_chars_rev | now apply IH].
    + apply IH. simpl. rewrite Hcur, andb_true_r.
      destruct (bad c) eqn:Hc; [| reflexivity].
      destruct (Hbad c s Hc) as (k & Hk). congruence.
Qed.

(** No piece is longer than what was split. *)
Lemma re_split_go_length match_at s : forall cur skip,
  Forall (fun piece => String.length piece <= String.length s + String.length cur)
         (PyStr.re_split_go match_at s cur skip).
Proof.
  induction s as [|c s IH]; intros cur skip; simpl.
  - constructor; [rewrite str_length_rev; lia | constructor].
  - assert (Hweak : forall cur' skip',
               String.length cur' <= S (String.length cur) ->
               Forall (fun piece => String.length piece <= S (String.length s + String.length cur))
                      (PyStr.re_split_go match_at s cur' skip')).
    { intros cur' skip' Hlen. eapply Forall_impl; [| apply IH]. simpl. intros p Hp. lia. }
    destruct skip as [|k]; [| apply Hweak; lia].
    destruct (match_at (String c s)) as [[|k]|].
    + apply Hweak. simpl. lia.
    + constructor; [rewrite str_length_rev; lia | apply Hweak; simpl; lia].
    + apply Hweak. simpl. lia.
Qed.

Lemma terminators_match c s :
  PyStr.is_terminator c = true -> exists k, PyStr.match_terminators (String c s) = Some (S k).
Proof.
  intros Hc. unfold PyStr.match_terminators. simpl. rewrite Hc.
  destruct (PyStr.span PyStr.is_terminator s) as [n r]. simpl. now exists n.
Qed.

Lemma separators_match c s :
  (Ascii.eqb c ","%char || Ascii.eqb c ";"%char) = true ->
  exists k, PyStr.match_separator (String c s) = Some (S k).
Proof. intros Hc. unfold PyStr.match_separator. rewrite Hc. now exists 0. Qed.

Lemma sub_spaces_chars s : forall in_run,
  all_chars (fun c => negb (PyStr.isspace c) || Ascii.eqb c " "%char)
            (PyStr.sub_spaces s in_run) = true.
Proof.
  induction s as [|c s IH]; intros in_run; simpl; auto.
  destruct (PyStr.isspace c) eqn:Hc.
  - destruct in_run; [apply IH | simpl; apply IH].
  - simpl. rewrite Hc. simpl. apply IH.
Qed.

Lemma length_sub_spaces s : forall in_run,
  String.length (PyStr.sub_spaces s in_run) <= String.length s.
Proof.
  induction s as [|c s IH]; intros in_run; simpl; auto.
  pose proof (IH true). pose proof (IH false).
  destruct (PyStr.isspace c); [destruct in_run |]; simpl; lia.
Qed.

Lemma Forall_fold_app {A B} (Q : B -> Prop) (f : A -> list B) (l : list A) : forall init,
  Forall Q init -> Forall (fun x => Forall Q (f x)) l ->
  Forall Q (fold_left (fun acc x => acc ++ f x) l init).
Proof.
  induction l as [|x l IH]; intros init Hinit Hl; simpl; auto.
  inversion Hl; subst. apply IH; auto. apply Forall_app. auto.
Qed.

Lemma Forall_map_filter {A B} (Q : B -> Prop) (R : A -> Prop) (f : A -> B)
      (keep : A -> bool) (l : list A) :
  Forall R l -> (forall x, R x -> keep x = true -> Q (f x)) ->
  Forall Q (map f (filter keep l)).
Proof.
  intros Hl HQ. induction Hl as [|x l Hx Hl IH]; simpl; auto.
  destruct (keep x) eqn:Hk; simpl; auto.
Qed.


(* ================================================================== *)
(** ** [preprocess_text] *)
(* ================================================================== *)

Lemma single_spaced_app a b :
  single_spaced (a ++ b)%string = true ->
  single_spaced a = true /\ single_spaced b = true.
Proof.
  induction a as [|c a IH]; simpl; [auto |].
  intros H. apply andb_prop in H. destruct H as [Hc Hrest].
  destruct (IH Hrest) as [Ha Hb]. split; [| exact Hb].
  rewrite Ha, andb_true_r. destruct a; [apply orb_true_r | exact Hc].
Qed.

Lemma sub_spaces_single s : forall in_run,
  single_spaced (PyStr.sub_spaces s in_run) = true
  /\ (in_run = true -> starts_clean (PyStr.sub_spaces s in_run) = true).
Proof.
  induction s as [|c s IH]; intros in_run; simpl; [auto |].
  destruct (IH true) as [Hrun Hclean]. destruct (IH false) as [Hword _].
  destruct (PyStr.isspace c) eqn:Hc.
  - destruct in_run; [auto |]. split; [| discriminate].
    simpl. now rewrite Hrun, (Hclean eq_refl).
  - split; simpl; rewrite Hc; [exact Hword | reflexivity].
Qed.

Lemma single_spaced_rev_cons c cur s :
  (PyStr.rev (String c cur) ++ s = PyStr.rev cur ++ String c s)%string.
Proof.
  unfold PyStr.rev at 1. simpl. rewrite str_rev_onto_append.
  now rewrite str_append_assoc.
Qed.

(** The pieces of a split are cut out of the string, so they are single
    spaced when the string is.  While a match is being passed over, the
    piece being read is empty. *)
Lemma re_split_go_single match_at s : forall cur skip,
  skip = 0 \/ cur = EmptyString ->
  single_spaced (PyStr.rev cur ++ s)%string = true ->
  Forall (fun piece => single_spaced piece = true) (PyStr.re_split_go match_at s cur skip).
Proof.
  induction s as [|c s IH]; intros cur skip Hstate Hs; simpl.
  - constructor; [| constructor]. now apply single_spaced_app in Hs.
  - assert (Hrest : single_spaced s = true).
    { apply single_spaced_app in Hs. destruct Hs as [_ Hs].
      apply (single_spaced_app (String c EmptyString) s) in Hs. apply Hs. }
    destruct skip as [|k].
    + destruct (match_at (String c s)) as [[|k]|].
      * apply IH; [now left |]. now rewrite single_spaced_rev_cons.
      * constructor; [now apply single_spaced_app in Hs |].
        apply IH; [now right | exact Hrest].
      * apply IH; [now left |]. now rewrite single_spaced_rev_cons.
    + destruct Hstate as [Hskip | ->]; [discriminate Hskip |].
      apply IH; [now right | exact Hrest].
Qed.

Lemma single_spaced_strip s : single_spaced s = true -> single_spaced (PyStr.strip s) = true.
Proof.
  intros Hs. unfold PyStr.strip.
  destruct (lstrip_suffix s) as (sp & Hl & _).
  destruct (rstrip_prefix (PyStr.lstrip s)) as (sp' & Hr & _).
  rewrite Hl in Hs. apply single_spaced_app in Hs. destruct Hs as [_ Hs].
  rewrite Hr in Hs. now apply single_spaced_app in Hs.
Qed.

(** X1. Every phrase [preprocess_text] returns has more than five
    characters, has no white space at either end, holds no sentence
    terminator, comma or semicolon and no white space but plain spaces, and
    holds no two spaces in a row. *)
Theorem preprocess_text_phrases text :
  Forall (fun phrase => 5 < String.length phrase
                        /\ PyStr.strip phrase = phrase
                        /\ all_chars phrase_char phrase = true
                        /\ single_spaced phrase = true)
         (preprocess_text text).
Proof.
  unfold preprocess_text.
  set (normal := PyStr.sub_spaces (PyStr.strip text) false).
  set (no_term := fun c => negb (PyStr.is_terminator c)).
  set (no_sep := fun c => negb (Ascii.eqb c ","%char || Ascii.eqb c ";"%char)).
  set (plain := fun c => negb (PyStr.isspace c) || Ascii.eqb c " "%char).
  assert (Hsentences :
            Forall (fun s => all_chars no_term s = true /\ all_chars plain s = true
                             /\ single_spaced s = true)
                   (map PyStr.strip
                        (filter (fun s => 10 <? String.length (PyStr.strip s))
                                (PyStr.re_split PyStr.match_terminators normal)))).
  { apply Forall_map_filter
      with (R := fun s => all_chars no_term s = true /\ all_chars plain s = true
                          /\ single_spaced s = true).
    - unfold PyStr.re_split. apply Forall_forall. intros piece Hin. repeat split.
      + pose proof (re_split_go_free PyStr.is_terminator PyStr.match_terminators
                      terminators_match normal EmptyString 0 eq_refl) as H.
        rewrite Forall_forall in H. now apply H.
      + pose proof (re_split_go_chars plain PyStr.match_terminators normal EmptyString 0
                      (sub_spaces_chars _ _) eq_refl) as H.
        rewrite Forall_forall in H. now apply H.
      + pose proof (re_split_go_single PyStr.match_terminators normal EmptyString 0
                      (or_introl eq_refl)
                      (proj1 (sub_spaces_single (PyStr.strip text) false))) as H.
        rewrite Forall_forall in H. now apply H.
    - intros s (H1 & H2 & H3) _. repeat split;
        [now apply all_chars_strip | now apply all_chars_strip | now apply single_spaced_strip]. }
  apply Forall_fold_app; [constructor |].
  eapply Forall_impl; [| exact Hsentences]. intros sentence (Hterm & Hplain & Hsingle).
  apply Forall_map_filter
    with (R := fun p => all_chars no_term p = true /\ all_chars plain p = true
                        /\ all_chars no_sep p = true /\ single_spaced p = true).
  - unfold PyStr.re_split. apply Forall_forall. intros piece Hin. repeat split.
    + pose proof (re_split_go_chars no_term PyStr.match_separator sentence EmptyString 0
                    Hterm eq_refl) as H.
      rewrite Forall_forall in H. now apply H.
    + pose proof (re_split_go_chars plain PyStr.match_separator sentence EmptyString 0
                    Hplain eq_refl) as H.
      rewrite Forall_forall in H. now apply H.
    + pose proof (re_split_go_free (fun c => Ascii.eqb c ","%char || Ascii.eqb c ";"%char)
                    PyStr.match_separator separators_match sentence EmptyString 0 eq_refl) as H.
      rewrite Forall_forall in H. now apply H.
    + pose proof (re_split_go_single PyStr.match_separator sentence EmptyString 0
                    (or_introl eq_refl) Hsingle) as H.
      rewrite Forall_forall in H. now apply H.
  - intros p (H1 & H2 & H3 & H4) Hkeep. split; [now apply Nat.ltb_lt in Hkeep |].
    split; [apply strip_idempotent |].
    split; [| now apply single_spaced_strip].
    unfold phrase_char. rewrite !all_chars_and.
    fold no_term. fold no_sep. fold plain.
    now rewrite !all_chars_strip.
Qed.

(** A text with runs of white space: the phrases have single spaces. *)
Example preprocess_text_spaces_ex :
  preprocess_text "alpha   beta    gamma delta,   epsilon  zeta."
  = ["alpha beta gamma delta"; "epsilon zeta"].
Proof. reflexivity. Qed.

(** X2. A text of at most ten characters gives no phrase: a sentence needs
    more than ten characters to be kept. *)
Theorem preprocess_text_short text :
  String.length text <= 10 -> preprocess_text text = [].
Proof.
  intros Hshort. unfold preprocess_text.
  set (normal := PyStr.sub_spaces (PyStr.strip text) false).
  assert (Hnormal : String.length normal <= 10).
  { unfold normal. etransitivity; [apply length_sub_spaces |].
    etransitivity; [apply length_strip | exact Hshort]. }
  replace (filter _ (PyStr.re_split PyStr.match_terminators normal)) with (@nil string);
    [reflexivity |].
  symmetry. unfold PyStr.re_split.
  pose proof (re_split_go_length PyStr.match_terminators normal EmptyString 0) as Hpieces.
  induction Hpieces as [|piece pieces Hpiece _ IH]; simpl; auto.
  rewrite IH. simpl in Hpiece.
  pose proof (length_strip piece).
  destruct (Nat.ltb_spec 10 (String.length (PyStr.strip piece))); [lia | reflexivity].
Qed.

(** A run of [preprocess_text_short]. *)
Lemma preprocess_text_short_witness :
  String.length "Hi, there!" <= 10 /\ preprocess_text "Hi, there!" = [].
Proof.
  split; [simpl; lia |]. apply (preprocess_text_short "Hi, there!"). simpl; lia.
Defined.


(* ================================================================== *)
(** ** [get_embeddings]: the requests *)
(* ================================================================== *)

Lemma get_embeddings_step_posts E self embeddings text w :
  exists embeddings' w',
    get_embeddings_step E self embeddings text w = (Ok embeddings', w')
    /\ posts w' = posts w ++ [embedding_request self text]
    /\ fits w' = fits w /\ files w' = files w.
Proof.
  unfold get_embeddings_step, try_except, bind, requests_post.
  fold (embedding_request self text).
  destruct (remote E _ _) as [e | status body]; cbn [fst snd];
    [eexists; eexists; repeat split; reflexivity |].
  destruct (status =? 200)%Z; [| eexists; eexists; repeat split; reflexivity].
  unfold response_json; cbn [snd].
  destruct body as [embedding|]; [| eexists; eexists; repeat split; reflexivity].
  unfold ret at 1.
  destruct (Py.nonempty_list embedding) eqn:Hshape;
    [| eexists; eexists; repeat split; reflexivity].
  destruct embedding as [ | | | | | [|x rest] | ]; try discriminate Hshape.
  eexists; eexists; repeat split; reflexivity.
Qed.

(** X3. [get_embeddings] sends exactly one request per phrase, in the order
    of the phrases and with the phrase as its input, whatever the earlier
    requests answered; it calls no KMeans and writes no file. *)
Theorem get_embeddings_requests E self texts w :
  posts (snd (get_embeddings E self texts w)) = posts w ++ map (embedding_request self) texts
  /\ fits (snd (get_embeddings E self texts w)) = fits w
  /\ files (snd (get_embeddings E self texts w)) = files w.
Proof.
  unfold get_embeddings, bind.
  assert (Hloop : forall embeddings w0,
             exists embeddings' w',
               for_each (get_embeddings_step E self) texts embeddings w0 = (Ok embeddings', w')
               /\ posts w' = posts w0 ++ map (embedding_request self) texts
               /\ fits w' = fits w0 /\ files w' = files w0).
  { induction texts as [|t ts IH]; intros embeddings w0.
    - exists embeddings, w0. simpl. now rewrite app_nil_r.
    - destruct (get_embeddings_step_posts E self embeddings t w0)
        as (e1 & w1 & Hstep & Hposts & Hfits & Hfiles).
      destruct (IH e1 w1) as (e2 & w2 & Hrest & Hposts' & Hfits' & Hfiles').
      exists e2, w2. cbn [for_each map]. unfold bind at 1. rewrite Hstep, Hrest.
      rewrite Hposts', Hposts, <- app_assoc. repeat split; congruence. }
  destruct (Hloop [] w) as (embeddings & w' & -> & Hposts & Hfits & Hfiles).
  simpl. auto.
Qed.

(* ================================================================== *)
(** ** [cluster_embeddings]: the count *)
(* ================================================================== *)

(** X4. Without an explicit count, the count passed to KMeans for [N]
    points is [N] itself when [N <= 1], and otherwise [N // 2] kept between
    2 and 10: two clusters up to five points, ten from twenty points on. *)
Theorem cluster_embeddings_auto_count E embeddings w :
  let N := Z.of_nat (List.length embeddings) in
  fits (snd (cluster_embeddings E embeddings None w))
  = fits w ++ [((if N <? 2 then N else Z.min 10 (Z.max 2 (N / 2)))%Z, embeddings)].
Proof.
  intros N. unfold cluster_embeddings, bind, KMeans_call, ret. fold N.
  assert (HN : (0 <= N)%Z) by (subst N; lia).
  set (k := Z.max 2 (Z.min (Z.min 10 (Z.max 2 (N / 2))) N)).
  replace (if (N <? k)%Z then N else k)
    with (if (N <? 2)%Z then N else Z.min 10 (Z.max 2 (N / 2))).
  - now destruct (KMeans_fit_predict E _ embeddings).
  - subst k. destruct (Z.ltb_spec N 2), (Z.ltb_spec N (Z.max 2 (Z.min (Z.min 10 (Z.max 2 (N / 2))) N)));
      Z.div_mod_to_equations; lia.
Qed.

(** X5. Whatever count is asked for, [cluster_embeddings] calls KMeans
    exactly once, with a count that does not exceed the number of points:
    an explicit count [k] becomes [min(k, N)], so that a count of zero or
    below is passed on as it is.  It returns that count with the labels of
    KMeans, raises what KMeans raises, and sends no request. *)
Theorem cluster_embeddings_clamps E embeddings n_clusters w :
  let N := Z.of_nat (List.length embeddings) in
  exists k,
    (k <= N)%Z
    /\ (forall k0, n_clusters = Some k0 -> k = Z.min k0 N)
    /\ cluster_embeddings E embeddings n_clusters w
       = (match KMeans_fit_predict E k embeddings with
          | Ok cluster_labels => Ok (cluster_labels, k)
          | Raise e => Raise e
          end,
          {| posts := posts w; draws := draws w; fits := fits w ++ [(k, embeddings)];
             files := files w |}).
Proof.
  intros N. unfold cluster_embeddings, bind, KMeans_call, ret. fold N.
  set (k0 := match n_clusters with Some k => k | None => _ end).
  exists (if (N <? k0)%Z then N else k0). split; [| split].
  - destruct (Z.ltb_spec N k0); lia.
  - intros k1 ->. subst k0. destruct (Z.ltb_spec N k1); lia.
  - now destruct (KMeans_fit_predict E _ embeddings).
Qed.


(* ================================================================== *)
(** ** [classify_clusters]: the labels *)
(* ================================================================== *)

Lemma classify_step_label E self classified_labels i cluster_text w :
  exists label w',
    classify_step E self classified_labels (i, cluster_text) w
    = (Ok (classified_labels ++ [label]), w')
    /\ List.length (posts w') = S (List.length (posts w))
    /\ (classification_failure E
          (remote E (List.length (posts w)) (classification_request self cluster_text)) ->
        label = PStr ("Cluster " ++ PyStr.of_nat (i + 1))).
Proof.
  unfold classify_step, try_except, bind, requests_post.
  fold (classification_request self cluster_text).
  destruct (remote E _ _) as [e | status body]; cbn [fst snd].
  { eexists; eexists; split; [reflexivity |]. split; [cbn [posts]; apply length_app1 | auto]. }
  destruct (Z.eqb_spec status 200) as [-> | Hstatus].
  2: { eexists; eexists; split; [reflexivity |].
       split; [cbn [posts]; apply length_app1 | auto]. }
  unfold response_json; cbn [snd].
  destruct body as [result|].
  2: { eexists; eexists; split; [reflexivity |].
       split; [cbn [posts]; apply length_app1 | auto]. }
  unfold ret at 1.
  destruct (Py.nonempty_list result) eqn:Hshape.
  2: { eexists; eexists; split; [reflexivity |].
       split; [cbn [posts]; apply length_app1 | auto]. }
  destruct result as [ | | | | | l | ]; try discriminate Hshape. cbn [Py.items].
  unfold lift.
  destruct (max_by_score E l) as [best | e] eqn:Hmax.
  2: { eexists; eexists; split; [reflexivity |].
       split; [cbn [posts]; apply length_app1 | auto]. }
  destruct (Py.getitem best "label") as [label | e] eqn:Hlabel.
  - eexists; eexists; split; [reflexivity |]. split; [cbn [posts]; apply length_app1 |].
    intros Hfail. inversion Hfail; subst; try congruence; try discriminate.
  - eexists; eexists; split; [reflexivity |].
    split; [cbn [posts]; apply length_app1 | auto].
Qed.

Lemma classify_loop_labels E self cluster_texts : forall start classified_labels w,
  exists labels w',
    for_each (classify_step E self)
             (combine (seq start (List.length cluster_texts)) cluster_texts)
             classified_labels w
    = (Ok (classified_labels ++ labels), w')
    /\ List.length labels = List.length cluster_texts
    /\ forall i cluster_text,
         nth_error cluster_texts i = Some cluster_text ->
         exists label,
           nth_error labels i = Some label
           /\ (classification_failure E
                 (remote E (List.length (posts w) + i)
                         (classification_request self cluster_text)) ->
               label = PStr ("Cluster " ++ PyStr.of_nat (start + i + 1))).
Proof.
  induction cluster_texts as [|t ts IH]; intros start classified_labels w.
  - exists [], w. simpl. rewrite app_nil_r. repeat split; auto.
    intros [|i] ?; discriminate.
  - destruct (classify_step_label E self classified_labels start t w)
      as (label & w1 & Hstep & Hposts & Hlabel).
    destruct (IH (S start) (classified_labels ++ [label]) w1)
      as (labels & w' & Hloop & Hlen & Hlabels).
    exists (label :: labels), w'. split; [| split].
    + cbn [List.length seq combine for_each]. unfold bind at 1.
      rewrite Hstep, Hloop. now rewrite <- app_assoc.
    + simpl. now rewrite Hlen.
    + intros [|i] text Hnth; simpl in Hnth.
      * injection Hnth as <-. exists label. rewrite !Nat.add_0_r. auto.
      * destruct (Hlabels i text Hnth) as (label' & Hnth' & Hfail).
        exists label'. split; [exact Hnth' |].
        replace (List.length (posts w) + S i) with (List.length (posts w1) + i) by lia.
        replace (start + S i + 1) with (S start + i + 1) by lia. exact Hfail.
Qed.

(** X6. [classify_clusters] never raises and returns one label per text,
    at the index of the text; the label of a text whose call fails (the
    request raises, the status is not 200, the body is not JSON, not a
    non-empty list, or its scores or label cannot be read) is
    ["Cluster n"], [n] being the index of the text counted from 1. *)
Theorem classify_clusters_labels E self cluster_texts cluster_labels w :
  exists labels w',
    classify_clusters E self cluster_texts cluster_labels w = (Ok labels, w')
    /\ List.length labels = List.length cluster_texts
    /\ forall i cluster_text,
         nth_error cluster_texts i = Some cluster_text ->
         exists label,
           nth_error labels i = Some label
           /\ (classification_failure E
                 (remote E (List.length (posts w) + i)
                         (classification_request self cluster_text)) ->
               label = PStr ("Cluster " ++ PyStr.of_nat (i + 1))).
Proof.
  destruct (classify_loop_labels E self cluster_texts 0 [] w)
    as (labels & w' & Hloop & Hlen & Hlabels).
  exists labels, w'. split; [exact Hloop |]. split; [exact Hlen | exact Hlabels].
Qed.






(* ================================================================== *)
(** ** [summarize_text]: the other paths *)
(* ================================================================== *)

(** X8. A string no longer than [max_length] is returned as it is, and no
    request is sent. *)
Theorem summarize_text_short E self text max_length w :
  (Z.of_nat (String.length text) <= max_length)%Z ->
  summarize_text E self (PStr text) max_length w = (Ok (PStr text), w).
Proof.
  intros Hshort. unfold summarize_text. cbn [Py.len]. unfold bind at 1, lift at 1.
  destruct (Z.leb_spec (Z.of_nat (String.length text)) max_length); [reflexivity | lia].
Qed.

(** A run of [summarize_text_short]: a label of 9 characters and the bound
    of 30 that [merge_results] uses. *)
Lemma summarize_text_short_witness :
  summarize_text Scenario.offline (pipeline Scenario.service) (PStr "Cluster 1") 30 world0
  = (Ok (PStr "Cluster 1"), world0).
Proof.
  apply (summarize_text_short Scenario.offline (pipeline Scenario.service)
                              "Cluster 1" 30 world0).
  simpl. lia.
Defined.

(** What [summarize_text] does with a string longer than [max_length], by
    the outcome of its one request. *)
Lemma summarize_text_long E self text max_length w :
  (max_length < Z.of_nat (String.length text))%Z ->
  summarize_text E self (PStr text) max_length w
  = (match summary_of (remote E (List.length (posts w))
                              (summarization_request self (PStr text) max_length)) with
     | Some summary => Ok summary
     | None => Ok (PStr (PyStr.slice_to text max_length ++ "..."))
     end,
     {| posts := posts w ++ [summarization_request self (PStr text) max_length];
        draws := draws w; fits := fits w; files := files w |}).
Proof.
  intros Hlong. unfold summarize_text. cbn [Py.len]. unfold bind at 1, lift at 1.
  destruct (Z.leb_spec (Z.of_nat (String.length text)) max_length) as [Hle | _]; [lia |].
  unfold try_except, bind, requests_post.
  fold (summarization_request self (PStr text) max_length).
  destruct (remote E _ _) as [e | status body]; cbn [fst snd summary_of]; [reflexivity |].
  destruct body as [[ | | | | | [|x rest] | ]|];
    try (destruct (status =? 200)%Z; reflexivity).
  destruct (status =? 200)%Z; [| reflexivity].
  cbn. unfold lift. now destruct (Py.getitem x "summary_text").
Qed.

Lemma summary_of_failure outcome : summarization_failure outcome -> summary_of outcome = None.
Proof.
  intros Hfail.
  inversion Hfail as [e He | s b Hs He | He | v Hv He | He | x rest e Hx He]; cbn; auto.
  - destruct b as [[ | | | | | [|x rest] | ]|]; auto.
    destruct (Z.eqb_spec s 200); [contradiction | reflexivity].
  - destruct v as [ | | | | | [|x rest] | ]; auto. discriminate Hv.
  - now rewrite Hx.
Qed.

Lemma str_length_append (a b : string) :
  String.length (a ++ b) = String.length a + String.length b.
Proof. induction a as [|c a IH]; simpl; auto. Qed.

Lemma length_take n : forall s, String.length (PyStr.take n s) = Nat.min n (String.length s).
Proof. induction n as [|n IH]; intros [|c s]; simpl; auto. Qed.

(** X9. On a string, [summarize_text] never raises and sends at most one
    request: none when the string is no longer than [max_length], and
    otherwise exactly one, which carries the string, [max_length] and the
    minimum length 10.  It draws no random number, calls no KMeans and
    writes no file. *)
Theorem summarize_text_one_request E self text max_length w :
  exists v,
    summarize_text E self (PStr text) max_length w
    = (Ok v,
       {| posts := posts w
                   ++ (if (Z.of_nat (String.length text) <=? max_length)%Z then []
                       else [summarization_request self (PStr text) max_length]);
          draws := draws w; fits := fits w; files := files w |})
    /\ forall r, In r (if (Z.of_nat (String.length text) <=? max_length)%Z then []
                       else [summarization_request self (PStr text) max_length]) ->
                 req_json r = PDict [("inputs", PStr text);
                                     ("parameters",
                                      PDict [("max_length", PInt max_length);
                                             ("min_length", PInt 10)])].
Proof.
  destruct (Z.leb_spec (Z.of_nat (String.length text)) max_length) as [Hle | Hlt].
  - exists (PStr text). split; [| intros r []].
    unfold summarize_text. cbn [Py.len]. unfold bind at 1, lift at 1.
    destruct (Z.leb_spec (Z.of_nat (String.length text)) max_length); [| lia].
    rewrite app_nil_r. now destruct w.
  - rewrite summarize_text_long by exact Hlt.
    destruct (summary_of _); eexists; (split; [reflexivity |]);
      intros r [<- | []]; reflexivity.
Qed.

(** X10. When the summarization call fails for a string longer than a
    non-negative [max_length], the result is [max_length + 3] characters
    long: the first [max_length] characters and the three dots. *)
Theorem summarize_text_fallback_length E self text max_length w :
  (0 <= max_length < Z.of_nat (String.length text))%Z ->
  summarization_failure
    (remote E (List.length (posts w)) (summarization_request self (PStr text) max_length)) ->
  exists r,
    fst (summarize_text E self (PStr text) max_length w) = Ok (PStr r)
    /\ Z.of_nat (String.length r) = (max_length + 3)%Z.
Proof.
  intros [Hpos Hlong] Hfail.
  rewrite summarize_text_long by exact Hlong.
  rewrite (summary_of_failure _ Hfail). eexists. split; [reflexivity |].
  rewrite str_length_append. unfold PyStr.slice_to.
  destruct (Z.leb_spec 0 max_length); [| lia].
  rewrite length_take. simpl. lia.
Qed.

(** A run of [summarize_text_fallback_length]: 100 characters cut at 50
    give 53. *)
Lemma summarize_text_fallback_length_witness :
  exists r,
    fst (summarize_text Scenario.offline (pipeline Scenario.service)
                        (PStr Scenario.hundred) 50 world0) = Ok (PStr r)
    /\ Z.of_nat (String.length r) = 53%Z.
Proof.
  apply (summarize_text_fallback_length Scenario.offline (pipeline Scenario.service)
                                        Scenario.hundred 50 world0).
  - simpl. lia.
  - exact (SF_raises RequestException).
Defined.

(** X11. When the call for a string longer than [max_length] answers 200
    with a list whose first element has a ['summary_text'], that value is
    returned as it is: neither its type nor its length is checked. *)
Theorem summarize_text_success E self text max_length w x rest summary :
  (max_length < Z.of_nat (String.length text))%Z ->
  remote E (List.length (posts w)) (summarization_request self (PStr text) max_length)
  = Response 200 (Some (PList (x :: rest))) ->
  Py.getitem x "summary_text" = Ok summary ->
  fst (summarize_text E self (PStr text) max_length w) = Ok summary.
Proof.
  intros Hlong Hout Hsummary. rewrite summarize_text_long by exact Hlong.
  rewrite Hout. cbn. now rewrite Hsummary.
Qed.

(** A run of [summarize_text_success]: the summary is longer than the
    bound, and is returned all the same. *)
Lemma summarize_text_success_witness :
  fst (summarize_text
         (Scenario.answering
            (Response 200
               (Some (PList [PDict [("summary_text", PStr "a rather long summary")]]))))
         (pipeline Scenario.service) (PStr "0123456789") 5 world0)
  = Ok (PStr "a rather long summary").
Proof.
  apply (summarize_text_success
           (Scenario.answering
              (Response 200
                 (Some (PList [PDict [("summary_text", PStr "a rather long summary")]]))))
           (pipeline Scenario.service) "0123456789" 5 world0
           (PDict [("summary_text", PStr "a rather long summary")]) []
           (PStr "a rather long summary")).
  - simpl. lia.
  - reflexivity.
  - reflexivity.
Defined.


(* ================================================================== *)
(** ** [extract_entities] *)
(* ================================================================== *)

(** What [extract_entities] does, by the outcome of its one request. *)
Lemma extract_entities_run E self text w :
  extract_entities E self text w
  = (match remote E (List.length (posts w)) (ner_request self text) with
     | Response status (Some (PList items)) =>
         if (status =? 200)%Z then
           match for_each_r extract_step items [] with
           | Ok entities => Ok entities
           | Raise _ => Ok []
           end
         else Ok []
     | _ => Ok []
     end,
     {| posts := posts w ++ [ner_request self text];
        draws := draws w; fits := fits w; files := files w |}).
Proof.
  unfold extract_entities, try_except, bind, requests_post.
  fold (ner_request self text).
  destruct (remote E _ _) as [e | status body]; cbn [fst snd]; [reflexivity |].
  destruct (status =? 200)%Z.
  - destruct body as [[ | | | | | items | ]|]; try reflexivity.
    cbn. unfold lift. now destruct (for_each_r extract_step items []).
  - destruct body as [[ | | | | | items | ]|]; reflexivity.
Qed.

(** X12. [extract_entities] never raises and sends exactly one request,
    which carries the whole text; when the call fails (the request raises,
    the status is not 200, the body is not JSON or is not a list) it
    returns the empty list. *)
Theorem extract_entities_best_effort E self text w :
  exists entities,
    extract_entities E self text w
    = (Ok entities,
       {| posts := posts w ++ [ner_request self text];
          draws := draws w; fits := fits w; files := files w |})
    /\ req_json (ner_request self text) = PDict [("inputs", PStr text)]
    /\ (ner_failure (remote E (List.length (posts w)) (ner_request self text)) ->
        entities = []).
Proof.
  rewrite extract_entities_run.
  assert (Hnone : exists entities : list pyval,
             (@Ok (list pyval) [],
              {| posts := posts w ++ [ner_request self text];
                 draws := draws w; fits := fits w; files := files w |})
             = (Ok entities,
                {| posts := posts w ++ [ner_request self text];
                   draws := draws w; fits := fits w; files := files w |})
             /\ req_json (ner_request self text) = PDict [("inputs", PStr text)]
             /\ (ner_failure (remote E (List.length (posts w)) (ner_request self text)) ->
                 entities = [])).
  { exists nil. split; [reflexivity | split; [reflexivity | intros _; reflexivity]]. }
  destruct (remote E _ _) as [e | status body] eqn:Hout; [exact Hnone |].
  destruct body as [[ | | | | | items | ]|]; try exact Hnone.
  destruct (Z.eqb_spec status 200) as [-> | Hstatus]; [| exact Hnone].
  destruct (for_each_r extract_step items []) as [entities | e]; [| exact Hnone].
  exists entities. split; [reflexivity | split; [reflexivity |]].
  intros Hfail. inversion Hfail; subst; try congruence; discriminate.
Qed.

Lemma extract_step_dict entities fields :
  extract_step entities (PDict fields) = Ok (entities ++ entity_of fields).
Proof.
  unfold extract_step, entity_of, rbind. cbn [Py.contains Py.getitem]. unfold ODict.mem.
  destruct (ODict.get String.eqb "entity" fields) as [entity|];
    [| now rewrite app_nil_r].
  destruct (ODict.get String.eqb "word" fields) as [word|]; [reflexivity |].
  now rewrite app_nil_r.
Qed.

Lemma extract_loop_dicts dicts : forall entities,
  for_each_r extract_step (map PDict dicts) entities
  = Ok (entities ++ flat_map entity_of dicts).
Proof.
  induction dicts as [|fields dicts IH]; intros entities; cbn [map for_each_r flat_map].
  - now rewrite app_nil_r.
  - rewrite extract_step_dict, IH. now rewrite <- app_assoc.
Qed.

(** X13. When the call answers 200 with a list of dictionaries, the
    entities are made from the items that have both an ['entity'] and a
    ['word'], in the order of the list: [{'text': word, 'label': entity}];
    the other items are passed over. *)
Theorem extract_entities_of_dicts E self text w dicts :
  remote E (List.length (posts w)) (ner_request self text)
  = Response 200 (Some (PList (map PDict dicts))) ->
  fst (extract_entities E self text w) = Ok (flat_map entity_of dicts).
Proof.
  intros Hout. rewrite extract_entities_run, Hout. cbn. now rewrite extract_loop_dicts.
Qed.

(** A run of [extract_entities_of_dicts]: the item without a ['word'] is
    passed over. *)
Lemma extract_entities_of_dicts_witness :
  fst (extract_entities
         (Scenario.answering
            (Response 200
               (Some (PList (map PDict
                                 [[("entity", PStr "B-LOC"); ("score", PFloat (9 # 10));
                                   ("word", PStr "Paris")];
                                  [("entity", PStr "B-PER")];
                                  [("word", PStr "Alice"); ("entity", PStr "B-PER")]])))))
         (pipeline Scenario.service) "Alice went to Paris" world0)
  = Ok [PDict [("text", PStr "Paris"); ("label", PStr "B-LOC")];
        PDict [("text", PStr "Alice"); ("label", PStr "B-PER")]].
Proof.
  apply (extract_entities_of_dicts
           (Scenario.answering
              (Response 200
                 (Some (PList (map PDict
                                   [[("entity", PStr "B-LOC"); ("score", PFloat (9 # 10));
                                     ("word", PStr "Paris")];
                                    [("entity", PStr "B-PER")];
                                    [("word", PStr "Alice"); ("entity", PStr "B-PER")]])))))
           (pipeline Scenario.service) "Alice went to Paris" world0
           [[("entity", PStr "B-LOC"); ("score", PFloat (9 # 10)); ("word", PStr "Paris")];
            [("entity", PStr "B-PER")];
            [("word", PStr "Alice"); ("entity", PStr "B-PER")]]).
  reflexivity.
Defined.

Lemma extract_loop_raises items : forall entities item,
  In item items -> is_scalar item = true ->
  exists e, for_each_r extract_step items entities = Raise e.
Proof.
  induction items as [|x items IH]; intros entities item Hin Hscalar; [destruct Hin |].
  cbn [for_each_r]. destruct (extract_step entities x) as [entities' | e] eqn:Hstep;
    [| now exists e].
  destruct Hin as [<- | Hin]; [| now apply (IH entities' item)].
  destruct x; try discriminate Hscalar; discriminate Hstep.
Qed.

(** X14. One item that is neither a dictionary, a list nor a string (a
    number, a boolean, [null]) anywhere in a 200 list body makes
    [extract_entities] return the empty list: the entities already made
    from the items before it are lost. *)
Theorem extract_entities_all_or_nothing E self text w items item :
  remote E (List.length (posts w)) (ner_request self text)
  = Response 200 (Some (PList items)) ->
  In item items -> is_scalar item = true ->
  fst (extract_entities E self text w) = Ok [].
Proof.
  intros Hout Hin Hscalar. rewrite extract_entities_run, Hout. cbn.
  destruct (extract_loop_raises items [] item Hin Hscalar) as (e & ->). reflexivity.
Qed.

(** A run of [extract_entities_all_or_nothing]: a well-formed entity
    followed by [null]. *)
Lemma extract_entities_all_or_nothing_witness :
  fst (extract_entities
         (Scenario.answering
            (Response 200
               (Some (PList [PDict [("entity", PStr "B-LOC"); ("word", PStr "Paris")];
                             PNone]))))
         (pipeline Scenario.service) "Alice went to Paris" world0)
  = Ok [].
Proof.
  apply (extract_entities_all_or_nothing
           (Scenario.answering
              (Response 200
                 (Some (PList [PDict [("entity", PStr "B-LOC"); ("word", PStr "Paris")];
                               PNone]))))
           (pipeline Scenario.service) "Alice went to Paris" world0
           [PDict [("entity", PStr "B-LOC"); ("word", PStr "Paris")]; PNone] PNone).
  - reflexivity.
  - right; left; reflexivity.
  - reflexivity.
Defined.


(* ================================================================== *)
(** ** [merge_results]: the groups and the cap *)
(* ================================================================== *)

Lemma get_set_other_Z {V} (c c' : Z) (v : V) (d : list (Z * V)) :
  c <> c' -> ODict.get Z.eqb c (ODict.set Z.eqb c' v d) = ODict.get Z.eqb c d.
Proof.
  intros Hne. induction d as [|[k x] d IH]; simpl.
  - destruct (Z.eqb_spec c c'); [contradiction | reflexivity].
  - destruct (Z.eqb_spec c' k) as [-> | Hk]; simpl.
    + destruct (Z.eqb_spec c k); [contradiction | reflexivity].
    + destruct (Z.eqb_spec c k); [reflexivity | exact IH].
Qed.

Lemma get_group_step clusters text c' c :
  ODict.get Z.eqb c (group_step clusters (text, c'))
  = if (c' =? c)%Z
    then Some (match ODict.get Z.eqb c clusters with Some l => l | None => [] end ++ [text])
    else ODict.get Z.eqb c clusters.
Proof.
  unfold group_step, ODict.mem.
  destruct (Z.eqb_spec c' c) as [-> | Hne].
  - destruct (ODict.get Z.eqb c clusters) as [l|] eqn:Hget.
    + rewrite Hget. apply (get_set_same Z.eqb Z.eqb_refl).
    + rewrite (get_set_same Z.eqb Z.eqb_refl). apply (get_set_same Z.eqb Z.eqb_refl).
  - destruct (ODict.get Z.eqb c' clusters) as [l|] eqn:Hget.
    + rewrite Hget. apply get_set_other_Z. congruence.
    + rewrite (get_set_same Z.eqb Z.eqb_refl).
      rewrite !get_set_other_Z by congruence. reflexivity.
Qed.

Lemma get_group_loop c l : forall clusters,
  ODict.get Z.eqb c (fold_left group_step l clusters)
  = match ODict.get Z.eqb c clusters,
          map fst (filter (fun tc => (snd tc =? c)%Z) l) with
    | Some old, new => Some (old ++ new)
    | None, [] => None
    | None, new => Some new
    end.
Proof.
  induction l as [|[text c'] l IH]; intros clusters; cbn [fold_left filter map snd].
  - destruct (ODict.get Z.eqb c clusters); [now rewrite app_nil_r | reflexivity].
  - rewrite IH, get_group_step.
    destruct (Z.eqb_spec c' c) as [-> | Hne]; cbn [map fst].
    + destruct (ODict.get Z.eqb c clusters); now rewrite <- ?app_assoc.
    + reflexivity.
Qed.

(** X15. The dictionary [clusters] of [merge_results] maps every cluster id
    that occurs in the assignment to the texts assigned to it, in the order
    of the phrase list, and has no entry for any other id; a text beyond
    the end of the assignment, or an id beyond the end of the texts, is
    left out. *)
Theorem group_texts_members texts cluster_labels c :
  ODict.get Z.eqb c (group_texts texts cluster_labels)
  = match texts_of_cluster texts cluster_labels c with
    | [] => None
    | cluster_texts => Some cluster_texts
    end.
Proof. unfold group_texts, texts_of_cluster. now rewrite get_group_loop. Qed.

Lemma cluster_children_length E self texts : forall cluster_children w children' w',
  for_each (cluster_child_step E self) texts cluster_children w = (Ok children', w') ->
  List.length children' = List.length cluster_children + List.length texts.
Proof.
  induction texts as [|t ts IH]; intros acc w children' w' Hrun; cbn [for_each] in Hrun.
  - injection Hrun as <- _. simpl. lia.
  - unfold bind at 1 in Hrun.
    destruct (cluster_child_step E self acc t w) as [[acc1 | e] w1] eqn:Hstep;
      [| discriminate].
    rewrite (IH _ _ _ _ Hrun). simpl.
    unfold cluster_child_step, bind in Hstep.
    match type of Hstep with
    | (let (_, _) := ?m in _) = _ => destruct m as [[text' | e] w2]; [| discriminate]
    end.
    injection Hstep as <- _. rewrite length_app1. lia.
Qed.

Lemma built_from_items E self classified_labels item node :
  built_from E self classified_labels item node ->
  List.length (node_items node) = Nat.min 5 (List.length (snd item)).
Proof.
  intros (w1 & w2 & Hnode). destruct item as [cluster_id cluster_texts].
  unfold cluster_node, bind in Hnode.
  destruct (lift (Py.index classified_labels cluster_id) w1) as [[name | e] w3];
    [| discriminate].
  destruct (lift (Py.len name) w3) as [[n | e] w4]; [| discriminate].
  match type of Hnode with
  | (let (_, _) := ?m in _) = _ => destruct m as [[name' | e] w5]; [| discriminate]
  end.
  destruct (for_each (cluster_child_step E self) (firstn 5 cluster_texts) [] w5)
    as [[cluster_children | e] w6] eqn:Hchildren; [| discriminate].
  injection Hnode as <- _.
  replace (node_items _) with cluster_children by reflexivity.
  rewrite (cluster_children_length _ _ _ _ _ _ _ Hchildren).
  cbn [List.length Nat.add snd]. now rewrite length_firstn.
Qed.

Lemma entity_node_items E item :
  node_items (entity_node E item) = firstn 5 (snd item).
Proof. now destruct item. Qed.

(** X16. In the document [merge_results] returns, every child holds at
    most five items: a cluster node holds as many items as its cluster has
    texts, up to five, and an entity node the first five texts of its
    category. *)
Theorem merge_results_cap E self texts cluster_labels classified_labels entities w doc w' :
  merge_results E self texts cluster_labels classified_labels entities w = (Ok doc, w') ->
  exists nodes,
    Py.getitem doc "children" = Ok (PList nodes)
    /\ Forall (fun node => List.length (node_items node) <= 5) nodes.
Proof.
  unfold merge_results. unfold bind at 1. intros Hrun.
  destruct (for_each (cluster_node_step E self classified_labels)
                     (group_texts texts cluster_labels) [] w) as [[children | e] w1] eqn:Hloop;
    [| discriminate].
  destruct (cluster_loop _ _ _ _ _ _ _ _ Hloop) as (nodes & -> & Hnodes). simpl in Hrun.
  assert (Hcluster : Forall (fun node => List.length (node_items node) <= 5) nodes).
  { clear Hrun Hloop. induction Hnodes as [|item node items nodes Hnode _ IH]; constructor; auto.
    rewrite (built_from_items _ _ _ _ _ Hnode). lia. }
  destruct entities as [|entity entities].
  - injection Hrun as <- _. exists nodes. split; [reflexivity | exact Hcluster].
  - unfold bind at 1 2, lift, ret in Hrun.
    destruct (group_entities (entity :: entities)) as [entity_clusters | e]; [| discriminate].
    injection Hrun as <- _. rewrite entity_nodes_appended.
    eexists. split; [reflexivity |]. apply Forall_app. split; [exact Hcluster |].
    apply Forall_forall. intros node Hin. apply in_map_iff in Hin.
    destruct Hin as (item & <- & _). rewrite entity_node_items, length_firstn. lia.
Qed.

(** A run of [merge_results_cap]: a cluster of six texts keeps five. *)
Lemma merge_results_cap_witness :
  exists doc nodes,
    merge_results Scenario.offline (pipeline Scenario.service)
                  ["one"; "two"; "three"; "four"; "five"; "six"] [0; 0; 0; 0; 0; 0]%Z
                  [PStr "Numbers"] [] world0
    = (Ok doc, world0)
    /\ Py.getitem doc "children" = Ok (PList nodes)
    /\ Forall (fun node => List.length (node_items node) <= 5) nodes.
Proof.
  eexists.
  assert (Hrun : merge_results Scenario.offline (pipeline Scenario.service)
                   ["one"; "two"; "three"; "four"; "five"; "six"] [0; 0; 0; 0; 0; 0]%Z
                   [PStr "Numbers"] [] world0 = (Ok _, world0)) by reflexivity.
  destruct (merge_results_cap _ _ _ _ _ _ _ _ _ Hrun) as (nodes & Hnodes & Hcap).
  exists nodes. split; [exact Hrun | split; assumption].
Defined.


(* ================================================================== *)
(** ** [process_text]: the file *)
(* ================================================================== *)

Lemma keeps_ret {A} (a : A) : keeps_files (ret a).
Proof. intros w. reflexivity. Qed.

Lemma keeps_raise {A} (e : exn) : keeps_files (@raise A e).
Proof. intros w. reflexivity. Qed.

Lemma keeps_lift {A} (r : result A) : keeps_files (lift r).
Proof. intros w. reflexivity. Qed.

Lemma keeps_bind {A B} (m : M A) (k : A -> M B) :
  keeps_files m -> (forall a, keeps_files (k a)) -> keeps_files (bind m k).
Proof.
  intros Hm Hk w. unfold bind. specialize (Hm w).
  destruct (m w) as [[a | e] w1]; simpl in *; [| exact Hm].
  now rewrite Hk.
Qed.

Lemma keeps_try {A} (m : M A) (handler : exn -> M A) :
  keeps_files m -> (forall e, keeps_files (handler e)) -> keeps_files (try_except m handler).
Proof.
  intros Hm Hh w. unfold try_except. specialize (Hm w).
  destruct (m w) as [[a | e] w1]; simpl in *; [exact Hm |].
  now rewrite Hh.
Qed.

Lemma keeps_for_each {A B} (body : B -> A -> M B) (l : list A) :
  (forall acc x, keeps_files (body acc x)) -> forall acc, keeps_files (for_each body l acc).
Proof.
  intros Hbody. induction l as [|x l IH]; intros acc; cbn [for_each].
  - apply keeps_ret.
  - apply keeps_bind; auto.
Qed.

Lemma keeps_if {A} (b : bool) (m1 m2 : M A) :
  keeps_files m1 -> keeps_files m2 -> keeps_files (if b then m1 else m2).
Proof. now destruct b. Qed.

Lemma keeps_post E self url json : keeps_files (requests_post E self url json).
Proof. intros w. unfold requests_post. now destruct (remote E _ _). Qed.

Lemma keeps_json response : keeps_files (response_json response).
Proof. unfold response_json. destruct (snd response); [apply keeps_ret | apply keeps_raise]. Qed.

Lemma keeps_random E n : keeps_files (np_random_rand_tolist E n).
Proof. intros w. reflexivity. Qed.

Lemma keeps_KMeans E k X : keeps_files (KMeans_call E k X).
Proof. intros w. reflexivity. Qed.

Create HintDb keeps.
#[local] Hint Resolve keeps_ret keeps_raise keeps_lift keeps_post keeps_json keeps_random
  keeps_KMeans : keeps.

Ltac keeps :=
  repeat first
    [ progress auto with keeps
    | apply keeps_bind; [| intros ?]
    | apply keeps_try; [| intros ?]
    | apply keeps_if
    | apply keeps_for_each; intros ? ? ].

Lemma keeps_get_embeddings E self texts : keeps_files (get_embeddings E self texts).
Proof. unfold get_embeddings, get_embeddings_step. keeps. Qed.

Lemma keeps_cluster_embeddings E embeddings n_clusters :
  keeps_files (cluster_embeddings E embeddings n_clusters).
Proof. unfold cluster_embeddings. keeps. Qed.

Lemma keeps_classify_clusters E self cluster_texts cluster_labels :
  keeps_files (classify_clusters E self cluster_texts cluster_labels).
Proof.
  unfold classify_clusters. apply keeps_for_each. intros acc [i t].
  unfold classify_step. keeps.
Qed.

Lemma keeps_summarize_text E self text max_length :
  keeps_files (summarize_text E self text max_length).
Proof. unfold summarize_text, truncated. keeps. Qed.

Lemma keeps_extract_entities E self text : keeps_files (extract_entities E self text).
Proof. unfold extract_entities. keeps. Qed.

#[local] Hint Resolve keeps_summarize_text : keeps.

Lemma keeps_merge_results E self texts cluster_labels classified_labels entities :
  keeps_files (merge_results E self texts cluster_labels classified_labels entities).
Proof.
  unfold merge_results. apply keeps_bind.
  - apply keeps_for_each. intros acc [cluster_id cluster_texts].
    unfold cluster_node_step, cluster_node, cluster_child_step. keeps.
  - intros children. apply keeps_bind; [| intros; apply keeps_ret].
    destruct entities; keeps.
Qed.

Lemma merge_results_root E self texts cluster_labels classified_labels entities w doc w' :
  merge_results E self texts cluster_labels classified_labels entities w = (Ok doc, w') ->
  Py.getitem doc "root" = Ok (PStr "Mind Map").
Proof.
  unfold merge_results, bind. intros Hrun.
  destruct (for_each _ _ _ w) as [[children | e] w1]; [| discriminate].
  match type of Hrun with
  | (let (_, _) := ?m in _) = _ => destruct m as [[children' | e] w2]; [| discriminate]
  end.
  injection Hrun as <- _. reflexivity.
Qed.

Lemma bind_saved {A B} (m : M A) (k : A -> M B)
      (saved : list (string * option pyval) -> result B * world -> Prop) (w : world) :
  keeps_files m ->
  (forall e w1, files w1 = files w -> saved (files w) (Raise e, w1)) ->
  (forall a w1, m w = (Ok a, w1) -> saved (files w1) (k a w1)) ->
  saved (files w) (bind m k w).
Proof.
  intros Hm Hraise Hk. unfold bind. specialize (Hm w).
  destruct (m w) as [[a | e] w1] eqn:Hrun; simpl in Hm.
  - rewrite <- Hm. now apply Hk.
  - now apply Hraise.
Qed.

Lemma process_text_files E self text path w :
  match process_text E self text (Some path) w with
  | (Ok mindmap, w') =>
      files w' = files w ++ [(path, Some mindmap)]
      /\ Py.getitem mindmap "root" = Ok (PStr "Mind Map")
  | (Raise e, w') =>
      files w' = files w
      \/ (files w' = files w ++ [(path, None)]
          /\ open_w E path = Ok tt
          /\ exists mindmap, json_dump E path mindmap = Raise e)
  end.
Proof.
  set (saved := fun (f : list (string * option pyval)) (out : result pyval * world) =>
                  match out with
                  | (Ok mindmap, w') =>
                      files w' = f ++ [(path, Some mindmap)]
                      /\ Py.getitem mindmap "root" = Ok (PStr "Mind Map")
                  | (Raise e, w') =>
                      files w' = f
                      \/ (files w' = f ++ [(path, None)]
                          /\ open_w E path = Ok tt
                          /\ exists mindmap, json_dump E path mindmap = Raise e)
                  end).
  change (saved (files w) (process_text E self text (Some path) w)).
  assert (Hraise : forall w0 e w1, files w1 = files w0 -> saved (files w0) (Raise e, w1))
    by (intros; left; assumption).
  unfold process_text.
  apply bind_saved; [apply keeps_get_embeddings | apply Hraise | intros embeddings w1 _].
  apply bind_saved;
    [apply keeps_cluster_embeddings | apply Hraise | intros [cluster_labels n_clusters] w2 _].
  apply bind_saved; [apply keeps_lift | apply Hraise | intros reps w3 _].
  apply bind_saved; [apply keeps_classify_clusters | apply Hraise | intros labels w4 _].
  apply bind_saved; [apply keeps_extract_entities | apply Hraise | intros entities w5 _].
  apply bind_saved; [apply keeps_merge_results | apply Hraise | intros mindmap w6 Hmerge].
  apply merge_results_root in Hmerge.
  unfold bind, save, ret, saved.
  destruct (open_w E path) as [[] | e] eqn:Hopen; [| now left].
  destruct (json_dump E path mindmap) as [[] | e] eqn:Hdump; cbn [files].
  - split; [reflexivity | exact Hmerge].
  - right. split; [reflexivity | split; [reflexivity | now exists mindmap]].
Qed.

(** X17. With an output file, [process_text] opens at most one file, the
    output file, as its last step: when it returns a mind map, that mind
    map is what was dumped into the file, and its root is ["Mind Map"];
    when it raises, either no file was opened, or the output file was
    opened and the dump into it raised that exception, which leaves the
    file incomplete. *)
Theorem process_text_saves_what_it_returns E self text path w :
  match process_text E self text (Some path) w with
  | (Ok mindmap, w') =>
      files w' = files w ++ [(path, Some mindmap)]
      /\ Py.getitem mindmap "root" = Ok (PStr "Mind Map")
  | (Raise e, w') =>
      files w' = files w
      \/ (files w' = files w ++ [(path, None)]
          /\ open_w E path = Ok tt
          /\ exists mindmap, json_dump E path mindmap = Raise e)
  end.
Proof. apply process_text_files. Qed.

(** X18. A text without any phrase makes [process_text] call KMeans with
    zero clusters on empty data before any request is sent; when KMeans
    refuses that, as scikit-learn does, [process_text] raises the same
    exception and nothing else happens: no request, no file. *)
Theorem process_text_no_phrase E self text output_file w e :
  preprocess_text text = [] ->
  KMeans_fit_predict E 0 [] = Raise e ->
  process_text E self text output_file w
  = (Raise e, {| posts := posts w; draws := draws w; fits := fits w ++ [(0%Z, [])];
                 files := files w |}).
Proof.
  intros Hphrases HKMeans. unfold process_text. rewrite Hphrases.
  assert (Hembeddings : get_embeddings E self [] w = (Ok [], w)).
  { unfold get_embeddings, bind, lift. cbn [for_each ret].
    now rewrite (np_array_uniform E [] []) by (simpl; auto; lia). }
  unfold bind. rewrite Hembeddings.
  unfold cluster_embeddings, KMeans_call, ret. cbn.
  now rewrite HKMeans.
Qed.

(** A run of [process_text_no_phrase]: the text ["..."]. *)
Lemma process_text_no_phrase_witness :
  process_text Scenario.offline (pipeline Scenario.service) "..." (Some "mindmap.json") world0
  = (Raise ValueError, {| posts := []; draws := 0; fits := [(0%Z, [])]; files := [] |}).
Proof.
  apply (process_text_no_phrase Scenario.offline (pipeline Scenario.service) "..."
                                (Some "mindmap.json") world0 ValueError);
    reflexivity.
Defined.

(* ================================================================== *)
(** ** [_create_fallback_mindmap]: the topics *)
(* ================================================================== *)

Lemma fallback_loop_topics sentences chunk_size :
  0 < chunk_size ->
  forall count start clusters,
    List.length clusters = start ->
    (start + count) * chunk_size < List.length sentences + chunk_size ->
    fold_left (fallback_step sentences chunk_size)
              (map (fun j => j * chunk_size) (seq start count)) clusters
    = clusters ++ map (topic sentences chunk_size) (seq start count).
Proof.
  intros Hcs. induction count as [|count IH]; intros start clusters Hlen Hbound.
  - simpl. now rewrite app_nil_r.
  - cbn [seq map fold_left].
    assert (Hstart : start * chunk_size < List.length sentences) by nia.
    assert (Hstep : fallback_step sentences chunk_size clusters (start * chunk_size)
                    = clusters ++ [topic sentences chunk_size start]).
    { unfold fallback_step, topic. rewrite Hlen.
      destruct (Py.slice sentences (start * chunk_size) (start * chunk_size + chunk_size))
        as [|s chunk] eqn:Hchunk; [| reflexivity].
      apply (f_equal (@List.length string)) in Hchunk.
      unfold Py.slice in Hchunk. rewrite length_firstn, length_skipn in Hchunk.
      simpl in Hchunk. lia. }
    rewrite Hstep, IH.
    + now rewrite <- app_assoc.
    + rewrite length_app1. lia.
    + lia.
Qed.

Lemma range_step_bound n chunk_size :
  0 < chunk_size ->
  let count := (n + chunk_size - 1) / chunk_size in
  count * chunk_size < n + chunk_size /\ n <= count * chunk_size.
Proof.
  intros Hcs count.
  pose proof (Nat.div_mod (n + chunk_size - 1) chunk_size) as Hdiv.
  pose proof (Nat.mod_upper_bound (n + chunk_size - 1) chunk_size) as Hmod.
  fold count in Hdiv. nia.
Qed.

Lemma fallback_clusters_topics' sentences :
  fallback_clusters sentences
  = map (topic sentences (Nat.max 1 (List.length sentences / 3)))
        (seq 0 ((List.length sentences + Nat.max 1 (List.length sentences / 3) - 1)
                / Nat.max 1 (List.length sentences / 3))).
Proof.
  unfold fallback_clusters, Py.range_step.
  set (n := List.length sentences). set (chunk_size := Nat.max 1 (n / 3)).
  assert (Hcs : 0 < chunk_size) by (unfold chunk_size; lia).
  rewrite (fallback_loop_topics sentences chunk_size Hcs); [reflexivity | reflexivity |].
  apply (range_step_bound n chunk_size Hcs).
Qed.

(** X19. [_create_fallback_mindmap] cuts the sentences into consecutive
    chunks of [chunk_size = max(1, len(sentences) // 3)] sentences, the last
    one possibly shorter, and makes one topic per chunk: the chunk number
    [j], counted from 0, becomes ["Topic j+1"] with the first five
    sentences of the chunk. *)
Theorem fallback_clusters_topics sentences :
  let n := List.length sentences in
  let chunk_size := Nat.max 1 (n / 3) in
  fallback_clusters sentences
  = map (topic sentences chunk_size) (seq 0 ((n + chunk_size - 1) / chunk_size)).
Proof. intros n chunk_size. apply fallback_clusters_topics'. Qed.

(** X20. The fallback document never has more than five topics: it has as
    many topics as sentences when there are at most three sentences, and
    three, four or five topics otherwise. *)
Theorem fallback_clusters_count sentences :
  let n := List.length sentences in
  let topics := List.length (fallback_clusters sentences) in
  topics <= 5 /\ (n <= 3 -> topics = n) /\ (3 <= n -> 3 <= topics).
Proof.
  intros n topics. subst topics. rewrite fallback_topic_count. fold n.
  set (chunk_size := Nat.max 1 (n / 3)).
  assert (Hcs : 0 < chunk_size) by (unfold chunk_size; lia).
  destruct (range_step_bound n chunk_size Hcs) as [Hup Hlow].
  set (count := (n + chunk_size - 1) / chunk_size) in *.
  pose proof (Nat.div_mod n 3) as Hdiv. pose proof (Nat.mod_upper_bound n 3) as Hmod.
  assert (Hq : chunk_size = 1 /\ n < 6 \/ chunk_size = n / 3 /\ 3 <= n) by (unfold chunk_size; lia).
  repeat split; intros; nia.
Qed.


Lemma firstn_plus {A} (a b : nat) (l : list A) :
  firstn (a + b) l = firstn a l ++ firstn b (skipn a l).
Proof.
  revert l. induction a as [|a IH]; intros [|x l]; simpl; auto.
  - now rewrite firstn_nil.
  - now rewrite IH.
Qed.

Lemma chunks_concat {A} (l : list A) (chunk_size count : nat) :
  flat_map (fun j => Py.slice l (j * chunk_size) (j * chunk_size + chunk_size)) (seq 0 count)
  = firstn (count * chunk_size) l.
Proof.
  induction count as [|count IH].
  - reflexivity.
  - rewrite seq_S, flat_map_app, IH. cbn [flat_map Nat.add]. rewrite app_nil_r.
    unfold Py.slice.
    replace (count * chunk_size + chunk_size - count * chunk_size) with chunk_size by lia.
    replace (S count * chunk_size) with (count * chunk_size + chunk_size) by lia.
    now rewrite firstn_plus.
Qed.

Lemma node_items_topic sentences chunk_size j :
  node_items (topic sentences chunk_size j)
  = map PStr (firstn 5 (Py.slice sentences (j * chunk_size) (j * chunk_size + chunk_size))).
Proof. reflexivity. Qed.

Lemma length_slice {A} (l : list A) (i j : nat) : List.length (Py.slice l i j) <= j - i.
Proof. unfold Py.slice. rewrite length_firstn. lia. Qed.

(** X21. With at most seventeen sentences the fallback document loses
    none: the items of its topics, read in order, are the sentences. *)
Theorem fallback_keeps_all_sentences sentences :
  List.length sentences <= 17 ->
  flat_map node_items (fallback_clusters sentences) = map PStr sentences.
Proof.
  intros Hn. rewrite fallback_clusters_topics'.
  remember (List.length sentences) as n eqn:Hlen.
  remember (Nat.max 1 (n / 3)) as chunk_size eqn:Hchunk.
  assert (Hcs : 0 < chunk_size <= 5).
  { pose proof (Nat.div_mod n 3). lia. }
  rewrite flat_map_concat_map, map_map.
  rewrite (map_ext _ (fun j => map PStr (Py.slice sentences (j * chunk_size)
                                                  (j * chunk_size + chunk_size)))).
  2: { intros j. rewrite node_items_topic. f_equal. apply firstn_all2.
       etransitivity; [apply length_slice | lia]. }
  rewrite <- (map_map (fun j => Py.slice sentences (j * chunk_size)
                                         (j * chunk_size + chunk_size)) (map PStr)).
  rewrite <- concat_map, <- flat_map_concat_map, chunks_concat.
  rewrite firstn_all2; [reflexivity |].
  rewrite <- Hlen. apply (range_step_bound n chunk_size). lia.
Qed.

(** A run of [fallback_keeps_all_sentences]: four sentences, four items. *)
Lemma fallback_keeps_all_sentences_witness :
  flat_map node_items (fallback_clusters ["One"; "Two"; "Three"; "Four"])
  = map PStr ["One"; "Two"; "Three"; "Four"].
Proof.
  apply (fallback_keeps_all_sentences ["One"; "Two"; "Three"; "Four"]). simpl. lia.
Defined.

(* ================================================================== *)
(** ** [_create_fallback_mindmap]: the sentences *)
(* ================================================================== *)

Lemma split_on_free sep s : forall cur,
  all_chars (fun c => negb (Ascii.eqb c sep)) cur = true ->
  Forall (fun piece => all_chars (fun c => negb (Ascii.eqb c sep)) piece = true)
         (PyStr.split_on sep s cur).
Proof.
  induction s as [|c s IH]; intros cur Hcur; simpl.
  - constructor; [now rewrite all_chars_rev | constructor].
  - destruct (Ascii.eqb c sep) eqn:Hc.
    + constructor; [now rewrite all_chars_rev | now apply IH].
    + apply IH. simpl. now rewrite Hc, Hcur.
Qed.

(** X22. The sentences of the fallback document are not empty, have no
    white space at either end and hold no period. *)
Theorem fallback_sentences_clean text :
  Forall (fun sentence =>
            0 < String.length sentence
            /\ PyStr.strip sentence = sentence
            /\ all_chars (fun c => negb (Ascii.eqb c "."%char)) sentence = true)
         (fallback_sentences text).
Proof.
  unfold fallback_sentences.
  apply Forall_map_filter
    with (R := fun s => all_chars (fun c => negb (Ascii.eqb c "."%char)) s = true).
  - apply split_on_free. reflexivity.
  - intros s Hs Hkeep. split; [| split].
    + destruct (PyStr.strip s); [discriminate Hkeep | simpl; lia].
    + apply strip_idempotent.
    + now apply all_chars_strip.
Qed.


(* ================================================================== *)
(** ** [test_ai_services] *)
(* ================================================================== *)

Lemma random_vector_len E d n : Py.len (random_vector E d n) = Ok (Z.of_nat n).
Proof. unfold random_vector. cbn [Py.len]. now rewrite length_map, length_seq. Qed.

Lemma test_embeddings_spec E self str_exn w :
  exists entry w',
    test_embeddings E self str_exn w = (Ok entry, w')
    /\ ((exists d, entry = PDict [("status", PStr "success");
                                  ("embedding_dimension", PInt d)])
        \/ exists e, entry = error_entry str_exn e)
    /\ (embedding_failure
          (remote E (List.length (posts w)) (embedding_request (pipeline self) test_text)) ->
        entry = PDict [("status", PStr "success"); ("embedding_dimension", PInt 384)]).
Proof.
  unfold test_embeddings, try_except. unfold bind at 1.
  destruct (get_embeddings_loop E (pipeline self) [test_text] [] w)
    as (vs & w1 & Hloop & Hlen & _ & Hvs).
  unfold get_embeddings, bind at 1. rewrite Hloop. cbn [app]. unfold lift at 1.
  destruct vs as [|v [|v' vs]]; try discriminate Hlen.
  destruct (Hvs 0 test_text eq_refl) as (v0 & Hv0 & Hentry). injection Hv0 as <-.
  rewrite Nat.add_0_r in Hentry. destruct Hentry as [Hfail _].
  assert (Hsynthetic : forall d0, np_array E [random_vector E d0 384]
                                  = Ok [random_vector E d0 384]).
  { intros d0. apply (np_array_uniform E [384]); [simpl; lia |].
    constructor; [apply shape_random_vector | constructor]. }
  destruct (np_array E [v]) as [embeddings | e] eqn:Harray.
  - apply np_array_returns in Harray. subst embeddings.
    unfold bind at 1 2, lift at 1. cbn [Py.index Z.leb Z.ltb Z.compare Z.to_nat nth_error].
    unfold lift at 1.
    destruct (Py.len v) as [d | e] eqn:Hd.
    + eexists; eexists. split; [reflexivity |]. split; [left; now exists d |].
      intros Houtcome. destruct (Hfail Houtcome) as [[d0 ->] _].
      rewrite random_vector_len in Hd. now injection Hd as <-.
    + eexists; eexists. split; [reflexivity |]. split; [right; now exists e |].
      intros Houtcome. destruct (Hfail Houtcome) as [[d0 ->] _].
      rewrite random_vector_len in Hd. discriminate Hd.
  - eexists; eexists. split; [reflexivity |]. split; [right; now exists e |].
    intros Houtcome. destruct (Hfail Houtcome) as [[d0 ->] _].
    rewrite Hsynthetic in Harray. discriminate Harray.
Qed.

Lemma test_classification_spec E self str_exn w :
  exists result w',
    test_classification E self str_exn w
    = (Ok (PDict [("status", PStr "success"); ("result", result)]), w').
Proof.
  unfold test_classification, try_except, bind, classify_clusters, Py.enumerate.
  destruct (classify_loop_labels E (pipeline self) [test_text] 0 [] w)
    as (labels & w' & Hloop & Hlen & _).
  rewrite Hloop.
  eexists; eexists; reflexivity.
Qed.

Lemma summarize_text_str_returns E self text max_length w :
  exists summary w', summarize_text E self (PStr text) max_length w = (Ok summary, w').
Proof.
  destruct (Z.leb_spec (Z.of_nat (String.length text)) max_length) as [Hle | Hlt].
  - exists (PStr text), w. unfold summarize_text. cbn [Py.len].
    unfold bind at 1, lift at 1.
    destruct (Z.leb_spec (Z.of_nat (String.length text)) max_length); [reflexivity | lia].
  - rewrite summarize_text_long by exact Hlt.
    destruct (summary_of _); eexists; eexists; reflexivity.
Qed.

Lemma test_summarization_spec E self str_exn w :
  exists summary w',
    test_summarization E self str_exn w
    = (Ok (PDict [("status", PStr "success"); ("summary", summary)]), w').
Proof.
  unfold test_summarization, try_except, bind.
  destruct (summarize_text_str_returns E (pipeline self) test_text 20 w)
    as (summary & w' & ->).
  eexists; eexists; reflexivity.
Qed.

Lemma test_ner_spec E self str_exn w :
  exists found w',
    test_ner E self str_exn w
    = (Ok (PDict [("status", PStr "success"); ("entities_found", PInt found)]), w').
Proof.
  unfold test_ner, try_except, bind. rewrite extract_entities_run.
  destruct (match remote E _ _ with PostRaises _ => _ | Response _ _ => _ end)
    as [entities | e] eqn:Hrun.
  - eexists; eexists; reflexivity.
  - exfalso. revert Hrun. destruct (remote E _ _) as [e0 | status [[ | | | | | items | ]|]];
      try discriminate.
    destruct (status =? 200)%Z; [| discriminate].
    destruct (for_each_r extract_step items []); discriminate.
Qed.

(** X23. [test_ai_services] never raises, and reports classification,
    summarization and NER as ["success"] whatever the remote does, because
    those steps answer their own failures; and when the embedding call
    fails, a random vector stands in, so that the embeddings are reported
    as ["success"] with dimension 384 and the overall status is
    ["operational"], also when no request gets through at all. *)
Theorem test_ai_services_report E self str_exn w :
  exists embeddings result summary found overall w',
    test_ai_services E self str_exn w
    = (Ok (PDict
             [("test_results",
               PDict [("embeddings", embeddings);
                      ("classification",
                       PDict [("status", PStr "success"); ("result", result)]);
                      ("summarization",
                       PDict [("status", PStr "success"); ("summary", summary)]);
                      ("ner",
                       PDict [("status", PStr "success"); ("entities_found", PInt found)])]);
              ("overall_status", PStr overall);
              ("tested_at", PStr (utcnow_isoformat E))]),
       w')
    /\ (embedding_failure
          (remote E (List.length (posts w)) (embedding_request (pipeline self) test_text)) ->
        embeddings = PDict [("status", PStr "success"); ("embedding_dimension", PInt 384)]
        /\ overall = "operational").
Proof.
  unfold test_ai_services.
  destruct (test_embeddings_spec E self str_exn w) as (embeddings & w1 & Hemb & Hshape & Hfail).
  destruct (test_classification_spec E self str_exn w1) as (result & w2 & Hcls).
  destruct (test_summarization_spec E self str_exn w2) as (summary & w3 & Hsum).
  destruct (test_ner_spec E self str_exn w3) as (found & w4 & Hner).
  unfold bind at 1. rewrite Hemb. unfold bind at 1. rewrite Hcls.
  unfold bind at 1. rewrite Hsum. unfold bind at 1. rewrite Hner.
  destruct Hshape as [[d ->] | [e ->]].
  - exists (PDict [("status", PStr "success"); ("embedding_dimension", PInt d)]),
      result, summary, found, "operational", w4.
    split; [reflexivity |]. intros Houtcome. split; [now apply Hfail | reflexivity].
  - exists (error_entry str_exn e), result, summary, found, "degraded", w4.
    split; [reflexivity |]. intros Houtcome. specialize (Hfail Houtcome). discriminate Hfail.
Qed.

(** Without network the report says ["operational"]. *)
Example test_ai_services_offline_ex :
  Py.getitem (match fst (test_ai_services Scenario.offline Scenario.service
                                          (fun _ => "error") world0) with
              | Ok report => report
              | Raise _ => PNone
              end) "overall_status"
  = Ok (PStr "operational").
Proof. vm_compute. reflexivity. Qed.


(* ================================================================== *)
(** ** [process_text]: the requests *)
(* ================================================================== *)

Section Sends.
Context (P : request -> Prop).

Lemma sends_ret {A} (a : A) : sends_only P (ret a).
Proof. intros w. exists []. simpl. now rewrite app_nil_r. Qed.

Lemma sends_raise {A} (e : exn) : sends_only P (@raise A e).
Proof. intros w. exists []. simpl. now rewrite app_nil_r. Qed.

Lemma sends_lift {A} (r : result A) : sends_only P (lift r).
Proof. intros w. exists []. simpl. now rewrite app_nil_r. Qed.

Lemma sends_bind {A B} (m : M A) (k : A -> M B) :
  sends_only P m -> (forall a, sends_only P (k a)) -> sends_only P (bind m k).
Proof.
  intros Hm Hk w. unfold bind. destruct (Hm w) as (new & Hposts & Hnew).
  destruct (m w) as [[a | e] w1]; simpl in *; [| now exists new].
  destruct (Hk a w1) as (new' & Hposts' & Hnew').
  exists (new ++ new'). rewrite Hposts', Hposts, <- app_assoc.
  split; [reflexivity | now apply Forall_app].
Qed.

Lemma sends_try {A} (m : M A) (handler : exn -> M A) :
  sends_only P m -> (forall e, sends_only P (handler e)) -> sends_only P (try_except m handler).
Proof.
  intros Hm Hh w. unfold try_except. destruct (Hm w) as (new & Hposts & Hnew).
  destruct (m w) as [[a | e] w1]; simpl in *; [now exists new |].
  destruct (Hh e w1) as (new' & Hposts' & Hnew').
  exists (new ++ new'). rewrite Hposts', Hposts, <- app_assoc.
  split; [reflexivity | now apply Forall_app].
Qed.

Lemma sends_for_each {A B} (body : B -> A -> M B) (l : list A) :
  (forall acc x, sends_only P (body acc x)) -> forall acc, sends_only P (for_each body l acc).
Proof.
  intros Hbody. induction l as [|x l IH]; intros acc; cbn [for_each].
  - apply sends_ret.
  - apply sends_bind; auto.
Qed.

Lemma sends_if {A} (b : bool) (m1 m2 : M A) :
  sends_only P m1 -> sends_only P m2 -> sends_only P (if b then m1 else m2).
Proof. now destruct b. Qed.

Lemma sends_post E self url json :
  P {| req_url := url; req_headers := headers self; req_json := json |} ->
  sends_only P (requests_post E self url json).
Proof.
  intros Hr w. unfold requests_post. eexists.
  destruct (remote E _ _); simpl; (split; [reflexivity | now constructor]).
Qed.

Lemma sends_json response : sends_only P (response_json response).
Proof. unfold response_json. destruct (snd response); [apply sends_ret | apply sends_raise]. Qed.

Lemma sends_random E n : sends_only P (np_random_rand_tolist E n).
Proof. intros w. exists []. simpl. now rewrite app_nil_r. Qed.

Lemma sends_KMeans E k X : sends_only P (KMeans_call E k X).
Proof. intros w. exists []. simpl. now rewrite app_nil_r. Qed.

Lemma sends_save E output_file mindmap : sends_only P (save E output_file mindmap).
Proof.
  intros w. exists []. rewrite app_nil_r. split; [| constructor]. unfold save.
  destruct output_file as [path|]; [| reflexivity].
  destruct (open_w E path); [destruct (json_dump E path mindmap) |]; reflexivity.
Qed.

End Sends.

Lemma from_pipeline_post self url json :
  In url [embedding_url self; classification_url self; summarization_url self; ner_url self] ->
  from_pipeline self {| req_url := url; req_headers := headers self; req_json := json |}.
Proof. intros Hurl. now split. Qed.

Ltac sends :=
  repeat first
    [ apply sends_ret | apply sends_raise | apply sends_lift | apply sends_json
    | apply sends_random | apply sends_KMeans | apply sends_save
    | apply sends_post; apply from_pipeline_post; simpl; tauto
    | apply sends_bind; [| intros ?]
    | apply sends_try; [| intros ?]
    | apply sends_if
    | apply sends_for_each; intros ? ? ].

Lemma sends_summarize_text E self text max_length :
  sends_only (from_pipeline self) (summarize_text E self text max_length).
Proof. unfold summarize_text, truncated. sends. Qed.

(** X24. Every request [process_text] sends goes to one of the four model
    endpoints of the pipeline and carries the headers of the pipeline: the
    header [Authorization: Bearer <token>] when the pipeline was built with
    a token that is not empty, and no header at all otherwise. *)
Theorem process_text_requests E self text output_file :
  sends_only (from_pipeline self) (process_text E self text output_file)
  /\ (forall c token,
        headers (MindMapPipeline_init (Some (String c token)))
        = [("Authorization", ("Bearer " ++ String c token)%string)])
  /\ headers (MindMapPipeline_init (Some "")) = []
  /\ headers (MindMapPipeline_init None) = [].
Proof.
  split; [| repeat split].
  unfold process_text.
  apply sends_bind; [unfold get_embeddings, get_embeddings_step; sends | intros embeddings].
  apply sends_bind; [unfold cluster_embeddings; sends | intros [cluster_labels n_clusters]].
  apply sends_bind; [sends | intros reps].
  apply sends_bind.
  { unfold classify_clusters. apply sends_for_each. intros acc [i t].
    unfold classify_step. sends. }
  intros labels.
  apply sends_bind; [unfold extract_entities; sends | intros entities].
  apply sends_bind.
  { unfold merge_results. apply sends_bind.
    - apply sends_for_each. intros acc [cluster_id cluster_texts].
      unfold cluster_node_step, cluster_node, cluster_child_step.
      repeat first [ apply sends_summarize_text | progress sends ].
    - intros children. apply sends_bind; [| intros; apply sends_ret].
      destruct entities; sends. }
  intros mindmap. sends.
Qed.


(* ================================================================== *)
(** ** [main] *)
(* ================================================================== *)

(** X25. [main] works on the text of [--text] when that is given and not
    empty, otherwise on what it reads from the file of [--file] when that
    is given and not empty, and otherwise on its example text.  It lets no
    exception of [process_text] through: it returns when [process_text]
    returns, the mind map being in the output file then, and exits with
    status 1 when [process_text] raises.  When the input file cannot be
    read, nothing is sent or written: [main] exits with status 1 when the
    file does not exist, and any other exception of the reading leaves
    [main]. *)
Theorem main_endings E read_text args w :
  match given (arg_text args), given (arg_file args) with
  | Some text, _ => main_processes E read_text args w text
  | None, None => main_processes E read_text args w default_text
  | None, Some path =>
      match read_text path with
      | Ok text => main_processes E read_text args w text
      | Raise e =>
          main E read_text args w
          = (if is_FileNotFoundError e then SystemExit 1 else Uncaught e, w)
      end
  end.
Proof.
  assert (Hrun : forall text,
             input_text read_text args = inl text ->
             main_processes E read_text args w text).
  { intros text Hinput. unfold main_processes, main. rewrite Hinput.
    pose proof (process_text_files E (MindMapPipeline_init (arg_token args)) text
                                   (arg_output args) w) as Hfiles.
    destruct (process_text _ _ _ _ w) as [[mindmap | e] w']; cbn [fst snd].
    - split; [reflexivity | split; [reflexivity | apply Hfiles]].
    - split; reflexivity. }
  unfold input_text in Hrun.
  destruct (given (arg_text args)) as [text|] eqn:Htext; [now apply Hrun |].
  destruct (given (arg_file args)) as [path|] eqn:Hfile; [| now apply Hrun].
  destruct (read_text path) as [text | e] eqn:Hread; [now apply Hrun |].
  unfold main, input_text. rewrite Htext, Hfile, Hread.
  now destruct (is_FileNotFoundError e).
Qed.

(** [main] with [--text ...] and a file that does not exist: the text is
    what is processed. *)
Example main_text_first_ex :
  main Scenario.offline (fun _ => Raise (OtherException "FileNotFoundError"))
       {| arg_text := Some "..."; arg_file := Some "notes.txt";
          arg_output := "mindmap.json"; arg_token := None |} world0
  = (SystemExit 1, {| posts := []; draws := 0; fits := [(0%Z, [])]; files := [] |}).
Proof. reflexivity. Qed.

(* ================================================================== *)
(** ** [process_text]: the representatives *)
(* ================================================================== *)

Lemma max_by_len_go rest : forall best before passed,
  Forall (fun x => String.length x < String.length best) before ->
  Forall (fun x => String.length x <= String.length best) passed ->
  first_longest (before ++ best :: passed ++ rest)
    (fold_left (fun best s => if String.length best <? String.length s then s else best)
               rest best).
Proof.
  induction rest as [|s rest IH]; intros best before passed Hbefore Hpassed;
    cbn [fold_left].
  - exists before, passed. rewrite app_nil_r. auto.
  - destruct (Nat.ltb_spec (String.length best) (String.length s)) as [Hlt | Hge].
    + replace (before ++ best :: passed ++ s :: rest)
        with ((before ++ best :: passed) ++ s :: [] ++ rest)
        by (now rewrite <- app_assoc).
      apply IH; [| constructor].
      apply Forall_app. split; [| constructor].
      * eapply Forall_impl; [| exact Hbefore]. simpl. intros; lia.
      * exact Hlt.
      * eapply Forall_impl; [| exact Hpassed]. simpl. intros; lia.
    + replace (before ++ best :: passed ++ s :: rest)
        with (before ++ best :: (passed ++ [s]) ++ rest)
        by (now rewrite <- app_assoc).
      apply IH; [exact Hbefore |].
      apply Forall_app. split; [exact Hpassed | constructor; [exact Hge | constructor]].
Qed.

Lemma max_by_len_first_longest first rest :
  first_longest (first :: rest) (Py.max_by_len first rest).
Proof. apply (max_by_len_go rest first [] []); constructor. Qed.

Lemma members_loop i phrases : forall seen cluster_labels cluster_texts,
  List.length phrases <= List.length cluster_labels ->
  for_each_r
    (fun cluster_texts jp =>
       let '(j, phrase) := jp in
       label <~ Py.index (seen ++ cluster_labels) (Z.of_nat j) ;;
       Ok (if (label =? i)%Z then cluster_texts ++ [phrase] else cluster_texts))
    (combine (seq (List.length seen) (List.length phrases)) phrases) cluster_texts
  = Ok (cluster_texts ++ texts_of_cluster phrases cluster_labels i).
Proof.
  unfold texts_of_cluster.
  induction phrases as [|phrase phrases IH]; intros seen cluster_labels cluster_texts Hlen.
  - simpl. now rewrite app_nil_r.
  - destruct cluster_labels as [|label cluster_labels]; [simpl in Hlen; lia |].
    cbn [List.length seq combine for_each_r filter map fst snd].
    unfold Py.index at 1.
    replace (0 <=? Z.of_nat (List.length seen))%Z with true by (symmetry; apply Z.leb_le; lia).
    replace (Z.of_nat (List.length seen) <? 0)%Z with false by (symmetry; apply Z.ltb_ge; lia).
    rewrite Nat2Z.id, nth_error_app2, Nat.sub_diag by lia.
    cbn [nth_error rbind].
    specialize (IH (seen ++ [label]) cluster_labels).
    rewrite length_app1, <- app_assoc in IH. cbn [app] in IH.
    rewrite IH by (simpl in Hlen; lia).
    destruct (label =? i)%Z; cbn [map fst]; [now rewrite <- app_assoc | reflexivity].
Qed.

(** X26. When every phrase has a cluster label, the representative of
    cluster [i] that [process_text] passes on to the classification is the
    first of the longest phrases assigned to the cluster, and the empty
    string when no phrase is assigned to it. *)
Theorem representative_is_first_longest phrases cluster_labels cluster_representatives i
  (Hlabelled : List.length phrases <= List.length cluster_labels) :
  exists representative,
    representative_step phrases cluster_labels cluster_representatives i
    = Ok (cluster_representatives ++ [representative])
    /\ match texts_of_cluster phrases cluster_labels i with
       | [] => representative = ""
       | cluster_texts => first_longest cluster_texts representative
       end.
Proof.
  unfold representative_step, members, Py.enumerate.
  pose proof (members_loop i phrases [] cluster_labels [] Hlabelled) as Hmembers.
  cbn [app List.length] in Hmembers. rewrite Hmembers. cbn [rbind].
  destruct (texts_of_cluster phrases cluster_labels i) as [|first rest].
  - exists "". split; reflexivity.
  - exists (Py.max_by_len first rest). split; [reflexivity |].
    apply max_by_len_first_longest.
Qed.

Lemma representative_is_first_longest_witness :
  exists representative,
    representative_step ["short"; "the longest"; "also longest"; "other"] [0; 0; 0; 1]%Z [] 0%Z
    = Ok ([] ++ [representative])
    /\ match texts_of_cluster ["short"; "the longest"; "also longest"; "other"]
                              [0; 0; 0; 1]%Z 0%Z with
       | [] => representative = ""
       | cluster_texts => first_longest cluster_texts representative
       end.
Proof.
  apply (representative_is_first_longest
           ["short"; "the longest"; "also longest"; "other"] [0; 0; 0; 1]%Z [] 0%Z).
  simpl. lia.
Defined.

Example default_text_length : String.length default_text = 778.
Proof. reflexivity. Qed.
